(** * The analysis coordinator of the AI SAAS content analyzer

    A shallow embedding of the background service [AIService]
    (src/src/popup.tsx, the two copies of the background script): the
    content hash, the fixed-window rate limiter, the content cache, the
    keyword simulation of the analysis and the decoder of a vendor reply.
    Around it, the listener of the background and the two popups that
    send it messages, the configuration (lib/config.ts), the content
    script that extracts the page, and the storage and retry helpers.

    JavaScript numbers that hold integers (clock readings in milliseconds,
    counters, UTF-16 code units, the 32-bit hash) are [Z]; the confidence, a
    fraction, is a rational [Q].  Strings are lists of UTF-16 code units.
    The two [Map]s of the service are [gmap]s keyed by such strings. *)

From Stdlib Require Import ZArith QArith Qminmax String Ascii List Lia.
From stdpp Require Import gmap strings list fin_maps pretty.

Local Open Scope Z_scope.
Set Warnings "-register-all".


(** ** Strings *)

(** A JavaScript string: its UTF-16 code units, as [charCodeAt] reads them. *)
Abbreviation jsstring := (list Z).

(** The code units of an ASCII literal of the source. *)
Definition codes (s : string) : jsstring :=
  map (fun a => Z.of_N (N_of_ascii a)) (list_ascii_of_string s).

(** ** 32-bit integer operators *)

(** ECMAScript [ToInt32]: reduce modulo 2^32 into [-2^31, 2^31). *)
Definition ToInt32 (x : Z) : Z :=
  let m := x mod 2 ^ 32 in
  if 2 ^ 31 <=? m then m - 2 ^ 32 else m.

(** [a << n] on numbers. *)
Definition shl (a n : Z) : Z := ToInt32 (Z.shiftl (ToInt32 a) (Z.land n 31)).

(** [a & b] on numbers. *)
Definition band (a b : Z) : Z := Z.land (ToInt32 a) (ToInt32 b).

(** ** generateContentHash *)

(** One turn of the loop body:
    [hash = ((hash << 5) - hash) + char; hash = hash & hash]. *)
Definition hashStep (hash char : Z) : Z :=
  let hash := (shl hash 5 - hash) + char in
  band hash hash.

Definition hashLoop (content : jsstring) : Z := fold_left hashStep content 0.

Definition generateContentHash (content : jsstring) : jsstring :=
  codes (pretty (hashLoop content)).

(** The reference definition of the specification: fold the text through
    [hash = hash * 31 + charCode], truncated to a signed 32-bit integer,
    and print it in decimal. *)
Definition referenceStep (hash char : Z) : Z := ToInt32 (hash * 31 + char).

Definition referenceHash (content : jsstring) : jsstring :=
  codes (pretty (fold_left referenceStep content 0)).

(** ** Data of the service *)

Record FormField := {
  name : jsstring;
  type : jsstring;
  value : jsstring;
  label : jsstring
}.

Record FormData := {
  id : jsstring;
  action : jsstring;
  fields : list FormField
}.

Record PageMetadata := {
  platform : jsstring;
  contentType : jsstring;
  wordCount : Z;
  hasInteractiveElements : bool
}.

(** [ExtractedData]; its own [timestamp] field is [extractedAt] here. *)
Record ExtractedData := {
  title : jsstring;
  url : jsstring;
  mainContent : jsstring;
  forms : list FormData;
  metadata : PageMetadata;
  extractedAt : Z
}.

Record RateLimitEntry := {
  timestamp : Z;
  count : Z
}.

(** What an asynchronous call settles to: a value, or a thrown [Error]
    carrying its message. *)
Inductive Completion (A : Type) : Type :=
| Returned (a : A)
| Thrown (message : jsstring).
Arguments Returned {A} a.
Arguments Thrown {A} message.

Definition RATE_LIMIT : Z := 10.
Definition CACHE_DURATION : Z := 5 * 60 * 1000.
Definition userKey : jsstring := codes "default_user".
Definition rateLimitMessage : jsstring :=
  codes "Rate limit exceeded. Please wait before making another request.".

(** The readings of [Date.now()] one call makes: in the cache test, in
    [checkRateLimit], and when the result is stored after the [await]. *)
Record Clock := {
  nowLookup : Z;
  nowLimit : Z;
  nowStore : Z
}.

(** ** checkRateLimit *)

(** The loop that deletes the entries older than the window. *)
Definition cleanOldEntries (windowStart : Z)
    (rateLimiter : gmap jsstring RateLimitEntry) : gmap jsstring RateLimitEntry :=
  filter (fun kv => ~ (timestamp kv.2 < windowStart)) rateLimiter.

Definition checkRateLimit (rateLimiter : gmap jsstring RateLimitEntry) (now : Z)
    : bool * gmap jsstring RateLimitEntry :=
  let windowStart := now - 60000 in
  let rateLimiter := cleanOldEntries windowStart rateLimiter in
  match rateLimiter !! userKey with
  | None =>
      (true, <[userKey := {| timestamp := now; count := 1 |}]> rateLimiter)
  | Some currentEntry =>
      if count currentEntry >=? RATE_LIMIT then (false, rateLimiter)
      else (true, <[userKey := {| timestamp := timestamp currentEntry;
                                  count := count currentEntry + 1 |}]> rateLimiter)
  end.

(** ** handleContentAnalysis, for any type of analysis *)

Section Coordinator.
Context {A : Type}.

(** A cache entry [{ data, timestamp }]. *)
Record CacheEntry := {
  data : A;
  cachedAt : Z
}.

(** The two maps the service owns. *)
Record AIService := {
  rateLimiter : gmap jsstring RateLimitEntry;
  cache : gmap jsstring CacheEntry
}.

Definition newAIService : AIService :=
  {| rateLimiter := ∅; cache := ∅ |}.

(** Where the synchronous part of a call stops. *)
Inductive Suspended :=
| Settled (c : Completion A)
| Awaiting (contentHash : jsstring).

(** The call up to [await this.simulateAIAnalysis(data)]: the cache test
    and the rate limit. *)
Definition beforeAwait (s : AIService) (d : ExtractedData) (clk : Clock)
    : Suspended * AIService :=
  let contentHash := generateContentHash (mainContent d) in
  let miss :=
    let '(allowed, rl) := checkRateLimit (rateLimiter s) (nowLimit clk) in
    let s := {| rateLimiter := rl; cache := cache s |} in
    if allowed then (Awaiting contentHash, s)
    else (Settled (Thrown rateLimitMessage), s) in
  match cache s !! contentHash with
  | Some cached =>
      if nowLookup clk - cachedAt cached <? CACHE_DURATION
      then (Settled (Returned (data cached)), s)
      else miss
  | None => miss
  end.

(** The call after the [await]: the analysis has settled to [backend]. *)
Definition afterAwait (s : AIService) (contentHash : jsstring)
    (backend : Completion A) (now : Z) : Completion A * AIService :=
  match backend with
  | Returned analysis =>
      (Returned analysis,
       {| rateLimiter := rateLimiter s;
          cache := <[contentHash := {| data := analysis; cachedAt := now |}]>
                     (cache s) |})
  | Thrown e => (Thrown e, s)
  end.

(** One call run to completion; [backend] is what the analysis of the backend
    settles to when the call reaches it. *)
Definition handleContentAnalysis (s : AIService) (d : ExtractedData)
    (clk : Clock) (backend : Completion A) : Completion A * AIService :=
  match beforeAwait s d clk with
  | (Settled c, s) => (c, s)
  | (Awaiting contentHash, s) => afterAwait s contentHash backend (nowStore clk)
  end.

(** A call with its clock readings and the outcome of its analysis. *)
Record Call := {
  callData : ExtractedData;
  callClock : Clock;
  callBackend : Completion A
}.

Definition callHash (c : Call) : jsstring :=
  generateContentHash (mainContent (callData c)).

(** Calls handled one after the other. *)
Fixpoint handleAll (s : AIService) (calls : list Call)
    : list (Completion A) * AIService :=
  match calls with
  | [] => ([], s)
  | c :: calls =>
      let '(r, s) := handleContentAnalysis s (callData c) (callClock c)
                       (callBackend c) in
      let '(rs, s) := handleAll s calls in
      (r :: rs, s)
  end.

(** The states of the service: a fresh one, and any state either
    part of a call leaves, in any interleaving of the calls in flight. *)
Inductive reachable : AIService -> Prop :=
| reachable_new : reachable newAIService
| reachable_before s d clk :
    reachable s -> reachable (beforeAwait s d clk).2
| reachable_after s contentHash backend now :
    reachable s -> reachable (afterAwait s contentHash backend now).2.

(** Every window entry is within the limit. *)
Definition withinLimit (rl : gmap jsstring RateLimitEntry) : Prop :=
  forall key entry, rl !! key = Some entry -> count entry <= RATE_LIMIT.

(** The cache test of the call misses. *)
Definition cacheMiss (s : AIService) (d : ExtractedData) (clk : Clock) : Prop :=
  match cache s !! generateContentHash (mainContent d) with
  | Some cached => nowLookup clk - cachedAt cached >= CACHE_DURATION
  | None => True
  end.
End Coordinator.

Arguments CacheEntry A : clear implicits.
Arguments AIService A : clear implicits.
Arguments Suspended A : clear implicits.
Arguments Call A : clear implicits.

(** ** String operations of the simulation *)

Fixpoint isPrefixOf (w s : jsstring) : bool :=
  match w, s with
  | [], _ => true
  | _ :: _, [] => false
  | a :: w, b :: s => (a =? b) && isPrefixOf w s
  end.

(** [s.includes(w)]. *)
Fixpoint includes (s w : jsstring) : bool :=
  isPrefixOf w s ||
  match s with
  | [] => false
  | _ :: s => includes s w
  end.

(** The matches of a global regular expression that is a plain word are
    its occurrences from left to right, the search resuming after each
    one; [skip] code units of the last match remain to be passed. *)
Fixpoint countFrom (word s : jsstring) (skip : nat) : nat :=
  match s with
  | [] => 0%nat
  | _ :: rest =>
      match skip with
      | S skip => countFrom word rest skip
      | O =>
          if isPrefixOf word s
          then S (countFrom word rest (length word - 1))
          else countFrom word rest 0
      end
  end.

(** [(content.match(new RegExp(word, 'g')) || []).length]. *)
Definition matchCount (content word : jsstring) : nat := countFrom word content 0.

(** The class [\s] of a regular expression, on code units. *)
Definition isWhiteSpace (c : Z) : bool :=
  ((9 <=? c) && (c <=? 13)) || (c =? 32) || (c =? 160) || (c =? 5760) ||
  ((8192 <=? c) && (c <=? 8202)) || (c =? 8232) || (c =? 8233) ||
  (c =? 8239) || (c =? 8287) || (c =? 12288) || (c =? 65279).

(** The maximal runs of white space of a string. *)
Fixpoint whiteSpaceRuns (s : jsstring) (inRun : bool) : nat :=
  match s with
  | [] => 0%nat
  | c :: s =>
      if isWhiteSpace c
      then ((if inRun then 0 else 1) + whiteSpaceRuns s true)%nat
      else whiteSpaceRuns s false
  end.

(** [content.split(/\s+/).length]: one piece more than there are runs. *)
Definition splitLength (content : jsstring) : nat := S (whiteSpaceRuns content false).

(** A number written in a template literal. *)
Definition showNat (n : nat) : jsstring := codes (pretty n).

(** ** Values a decoded reply can hold *)

Inductive JSValue : Type :=
| JNull
| JBool (b : bool)
| JNumber (q : Q)
| JString (s : jsstring)
| JArray (items : list JSValue)
| JObject (properties : list (jsstring * JSValue)).

(** [ContentAnalysis] as it exists at run time.  The interface declares
    [summary: string], a [sentiment] among three literals and arrays of
    strings; nothing checks that when a reply is decoded, so the fields
    hold values. *)
Record ContentAnalysis := {
  summary : JSValue;
  sentiment : JSValue;
  keyInsights : list JSValue;
  confidence : Q;
  actionableItems : list JSValue;
  categories : list JSValue
}.

Definition str (s : string) : JSValue := JString (codes s).

(** ** simulateAIAnalysis, the keyword simulation *)

Section Simulation.
(** [String.prototype.toLowerCase] and [toUpperCase] follow the Unicode
    case tables of the host. *)
Variables toLowerCase toUpperCase : jsstring -> jsstring.

Definition hasForms (d : ExtractedData) : bool := (0 <? length (forms d))%nat.

Definition notUnknown (platform : jsstring) : bool :=
  bool_decide (platform <> codes "unknown").

Definition extractKeyInsights (d : ExtractedData) : list jsstring :=
  let content := toLowerCase (mainContent d) in
  let insights :=
    (if includes content (codes "dashboard")
     then [codes "Page appears to be a dashboard interface"] else []) ++
    (if hasForms d
     then [codes "Contains " ++ showNat (length (forms d)) ++
           codes " interactive form" ++
           (if (1 <? length (forms d))%nat then codes "s" else [])]
     else []) ++
    (if hasInteractiveElements (metadata d)
     then [codes "High level of user interaction elements detected"] else []) ++
    (if 500 <? wordCount (metadata d)
     then [codes "Content-rich page with substantial information"] else []) ++
    (let platform := platform (metadata d) in
     if notUnknown platform
     then [codes "Optimized for " ++ platform ++ codes " platform integration"]
     else []) in
  if (0 <? length insights)%nat then insights
  else [codes "Standard web content detected"].

Definition generateActionableItems (d : ExtractedData) : list jsstring :=
  (if hasForms d
   then [codes "Review form completion rates and user experience"] else []) ++
  (if 1000 <? wordCount (metadata d)
   then [codes "Consider content summarization for better readability"] else []) ++
  (if hasInteractiveElements (metadata d)
   then [codes "Monitor user interaction patterns and optimize workflow"] else []) ++
  [codes "Set up automated monitoring for content changes"].

Definition categorizeContent (d : ExtractedData) : list jsstring :=
  let content := toLowerCase (mainContent d) in
  let url := toLowerCase (url d) in
  let categories :=
    (if includes url (codes "dashboard") || includes content (codes "dashboard")
     then [codes "Dashboard"] else []) ++
    (if hasForms d then [codes "Forms"] else []) ++
    (if includes content (codes "analytics") || includes content (codes "metrics")
     then [codes "Analytics"] else []) ++
    (if includes content (codes "settings") || includes content (codes "configuration")
     then [codes "Configuration"] else []) ++
    (if notUnknown (platform (metadata d))
     then [codes "SAAS Application"] else []) in
  if (0 <? length categories)%nat then categories
  else [codes "General Content"].

Definition generateSummary (d : ExtractedData) (wordCount : nat) : jsstring :=
  let platform := platform (metadata d) in
  let contentType := contentType (metadata d) in
  if notUnknown platform then
    toUpperCase (take 1 platform) ++ drop 1 platform ++ codes " " ++
    contentType ++ codes " page with " ++ showNat wordCount ++ codes " words. " ++
    (if hasInteractiveElements (metadata d)
     then codes "High user interaction potential."
     else codes "Primarily informational content.")
  else
    codes "Web " ++ contentType ++ codes " with " ++ showNat wordCount ++
    codes " words. " ++
    (if hasForms d
     then codes "Contains " ++ showNat (length (forms d)) ++ codes " forms."
     else []) ++
    codes " " ++
    (if hasInteractiveElements (metadata d)
     then codes "Interactive elements detected." else []).

Definition positiveKeywords : list jsstring :=
  map codes ["good"; "great"; "excellent"; "amazing"; "successful"; "growth";
             "improve"; "better"]%string.

Definition negativeKeywords : list jsstring :=
  map codes ["bad"; "terrible"; "awful"; "failed"; "error"; "problem"; "issue";
             "decrease"]%string.

(** The [forEach] loops that add up the matches of each keyword. *)
Definition keywordCount (content : jsstring) (keywords : list jsstring) : nat :=
  fold_left (fun total word => (total + matchCount content word)%nat) keywords 0%nat.

(** [Math.min(0.9, Math.max(0.3, (positiveCount + negativeCount) / 10))].
    [Math.min] and [Math.max] return one of their arguments, so the bounds
    0.3 and 0.9 hold of the floating-point value as they do of the
    rational. *)
Definition simulatedConfidence (positiveCount negativeCount : nat) : Q :=
  Qmin 0.9 (Qmax 0.3 (inject_Z (Z.of_nat (positiveCount + negativeCount)) / 10)).

Definition simulatedSentiment (positiveCount negativeCount : nat) : jsstring :=
  if (negativeCount <? positiveCount)%nat then codes "positive"
  else if (positiveCount <? negativeCount)%nat then codes "negative"
  else codes "neutral".

Definition simulateAIAnalysis (d : ExtractedData) : ContentAnalysis :=
  let content := toLowerCase (mainContent d) in
  let wordCount := splitLength content in
  let positiveCount := keywordCount content positiveKeywords in
  let negativeCount := keywordCount content negativeKeywords in
  let sentiment := simulatedSentiment positiveCount negativeCount in
  let keyInsights := extractKeyInsights d in
  let actionableItems := generateActionableItems d in
  let categories := categorizeContent d in
  {| summary := JString (generateSummary d wordCount);
     sentiment := JString sentiment;
     keyInsights := map JString keyInsights;
     confidence := simulatedConfidence positiveCount negativeCount;
     actionableItems := map JString actionableItems;
     categories := map JString categories |}.

(** The service whose analysis is the simulation: the simulation cannot
    fail, so every admitted call settles to its record. *)
Definition simulatedCall (s : AIService ContentAnalysis) (d : ExtractedData)
    (clk : Clock) : Completion ContentAnalysis * AIService ContentAnalysis :=
  handleContentAnalysis s d clk (Returned (simulateAIAnalysis d)).

Inductive simulated : AIService ContentAnalysis -> Prop :=
| simulated_new : simulated newAIService
| simulated_call s d clk : simulated s -> simulated (simulatedCall s d clk).2.
End Simulation.

(** ** parseAIResponse, the decoder of a vendor reply *)

(** [parsed.key] on a parsed object: its property, if it has one. *)
Fixpoint getProperty (properties : list (jsstring * JSValue)) (key : jsstring)
    : option JSValue :=
  match properties with
  | [] => None
  | (k, v) :: rest =>
      if bool_decide (k = key) then Some v else getProperty rest key
  end.

(** Truthiness of a value of a parsed reply. *)
Definition truthy (v : JSValue) : bool :=
  match v with
  | JNull => false
  | JBool b => b
  | JNumber q => negb (Qeq_bool q 0)
  | JString s => negb (bool_decide (s = []))
  | JArray _ | JObject _ => true
  end.

(** [parsed.key || fallback]. *)
Definition orElse (v : option JSValue) (fallback : JSValue) : JSValue :=
  match v with
  | Some v => if truthy v then v else fallback
  | None => fallback
  end.

(** [Array.isArray(parsed.key) ? parsed.key : fallback]. *)
Definition arrayOr (v : option JSValue) (fallback : list JSValue) : list JSValue :=
  match v with
  | Some (JArray items) => items
  | _ => fallback
  end.

(** [typeof parsed.key === 'number' ? parsed.key : fallback]. *)
Definition numberOr (v : option JSValue) (fallback : Q) : Q :=
  match v with
  | Some (JNumber q) => q
  | _ => fallback
  end.

(** What [response.match(/\{[\s\S]*\}/)] and [JSON.parse], both of the
    host, make of the text of a reply: the properties of the object that
    was parsed, or nothing when no brace pair is found or the parse throws. *)
Inductive Decoded :=
| NoObject
| Parsed (parsed : list (jsstring * JSValue)).

Definition parseAIResponse (response : Decoded) : ContentAnalysis :=
  match response with
  | Parsed parsed =>
      {| summary := orElse (getProperty parsed (codes "summary"))
                      (str "Analysis completed");
         sentiment := orElse (getProperty parsed (codes "sentiment"))
                        (str "neutral");
         keyInsights := arrayOr (getProperty parsed (codes "keyInsights"))
                          [str "Analysis performed"];
         confidence := numberOr (getProperty parsed (codes "confidence")) 0.5;
         actionableItems := arrayOr (getProperty parsed (codes "actionableItems"))
                              [str "Review results"];
         categories := arrayOr (getProperty parsed (codes "categories"))
                         [str "General"] |}
  | NoObject =>
      {| summary := str "AI analysis completed but response format was unexpected";
         sentiment := str "neutral";
         keyInsights := [str "Content analysis performed"];
         confidence := 0.3;
         actionableItems := [str "Review AI service configuration"];
         categories := [str "General Content"] |}
  end.

(** A call whose analysis is [callOpenAIDirect] or [callAnthropicDirect]
    with a reply received: both end in [return this.parseAIResponse(text)]. *)
Definition vendorCall (s : AIService ContentAnalysis) (d : ExtractedData)
    (clk : Clock) (reply : Decoded)
    : Completion ContentAnalysis * AIService ContentAnalysis :=
  handleContentAnalysis s d clk (Returned (parseAIResponse reply)).

(** ** The shape the interface promises *)

Definition sentiments : list JSValue :=
  [str "positive"; str "negative"; str "neutral"].

Definition confidenceWithin (lo hi : Q) (r : ContentAnalysis) : Prop :=
  (lo <= confidence r)%Q /\ (confidence r <= hi)%Q.

Definition wellShaped (r : ContentAnalysis) : Prop :=
  confidenceWithin 0 1 r /\ In (sentiment r) sentiments.

(** What the simulation promises of a record. *)
Definition simulatedShape (r : ContentAnalysis) : Prop :=
  confidenceWithin 0.3 0.9 r /\ In (sentiment r) sentiments.

(** The window entry of the caller that is still active at [now]. *)
Definition activeEntry (rl : gmap jsstring RateLimitEntry) (now : Z)
    : option RateLimitEntry :=
  cleanOldEntries (now - 60000) rl !! userKey.

(** ** Messages between popup, content script and background *)

(** A [ChromeMessage]: [{ type, data?, url? }]. *)
Record ChromeMessage := {
  messageType : jsstring;
  messageData : option ExtractedData;
  messageUrl : option jsstring
}.

(** What a listener passes to [sendResponse]. *)
Inductive Response (X : Type) : Type :=
| Success (payload : X)
| Failure (error : jsstring)
| Acknowledged.
Arguments Success {X} payload.
Arguments Failure {X} error.
Arguments Acknowledged {X}.

(** What [chrome.runtime.sendMessage] or [chrome.tabs.sendMessage] settles
    to: the response of the listener, [undefined] when none answered, or
    a rejection with an [Error]. *)
Inductive Transport (X : Type) : Type :=
| Delivered (response : Response X)
| Unanswered
| Rejected (message : jsstring).
Arguments Delivered {X} response.
Arguments Unanswered {X}.
Arguments Rejected {X} message.

(** [s || fallback] on strings. *)
Definition orString (s fallback : jsstring) : jsstring :=
  if bool_decide (s = []) then fallback else s.

Section Messaging.
(** The message of the [TypeError] the host throws on reading the named
    property of [undefined]. *)
Variable typeError : jsstring -> jsstring.

(** The listener [setupMessageHandlers] installs in the background: what
    it passes to [sendResponse], if anything, what it returns, and the
    service after it. *)
Definition onBackgroundMessage {A : Type} (s : AIService A)
    (message : ChromeMessage) (clk : Clock) (backend : Completion A)
    : option (Response A) * bool * AIService A :=
  if bool_decide (messageType message = codes "ANALYZE_CONTENT") then
    match messageData message with
    | Some d =>
        match handleContentAnalysis s d clk backend with
        | (Returned analysis, s) => (Some (Success analysis), true, s)
        | (Thrown error, s) => (Some (Failure error), true, s)
        end
    | None => (Some (Failure (typeError (codes "mainContent"))), true, s)
    end
  else if bool_decide (messageType message = codes "CONTENT_CHANGED") then
    (Some Acknowledged, false, s)
  else (None, false, s).

(** [MessageHandler.sendToBackground] and [sendToContent], given what the
    transport settles to. *)
Definition sendToBackground {X : Type} (sent : Transport X)
    : Completion (Response X) :=
  match sent with
  | Delivered (Failure error) => Thrown (orString error (codes "Message failed"))
  | Delivered response => Returned response
  | Unanswered => Thrown (typeError (codes "success"))
  | Rejected message => Thrown message
  end.

(** ** The popup that talks to [chrome] directly *)

Record Tab := {
  tabId : option Z;
  tabUrl : option jsstring
}.

Record AnalysisState (A : Type) := {
  analysis : option A;
  loading : bool;
  error : option jsstring;
  lastAnalyzed : option jsstring
}.
Arguments analysis {A} _.
Arguments loading {A} _.
Arguments error {A} _.
Arguments lastAnalyzed {A} _.

(** [currentTab.url || null]. *)
Definition urlOrNull (u : option jsstring) : option jsstring :=
  match u with
  | Some u => if bool_decide (u = []) then None else Some u
  | None => None
  end.

(** [!currentTab?.id]. *)
Definition hasNoId (currentTab : option Tab) : bool :=
  match currentTab with
  | Some tab =>
      match tabId tab with
      | Some i => i =? 0
      | None => true
      end
  | None => true
  end.

(** The part of [analyzeCurrentPage] inside [try]: the analysis and what
    was written to [chrome.storage.local], or the error thrown.
    [extracted] is what the content script answered, [analysed] what the
    background answers to the data sent on, [stored] the error of the
    write to the storage if it fails. *)
Definition analyzeSteps {A : Type} (tab : Tab)
    (extracted : Transport ExtractedData)
    (analysed : option ExtractedData -> Transport A)
    (stored : option jsstring) : Completion (option A) :=
  let withData (d : option ExtractedData) : Completion (option A) :=
    let finish (a : option A) : Completion (option A) :=
      match stored with
      | Some message => Thrown message
      | None => Returned a
      end in
    match analysed d with
    | Delivered (Success a) => finish (Some a)
    | Delivered Acknowledged => finish None
    | Delivered (Failure error) =>
        Thrown (orString error (codes "Failed to analyze content"))
    | Unanswered => Thrown (typeError (codes "success"))
    | Rejected message => Thrown message
    end in
  match extracted with
  | Delivered (Success d) => withData (Some d)
  | Delivered Acknowledged => withData None
  | Delivered (Failure error) =>
      Thrown (orString error (codes "Failed to extract content"))
  | Unanswered => Thrown (typeError (codes "success"))
  | Rejected message => Thrown message
  end.

(** [analyzeCurrentPage]: the state of the popup once all its updates are
    applied. *)
Definition analyzeCurrentPage {A : Type} (state : AnalysisState A)
    (currentTab : option Tab) (extracted : Transport ExtractedData)
    (analysed : option ExtractedData -> Transport A)
    (stored : option jsstring) : AnalysisState A :=
  match currentTab with
  | Some tab =>
      if hasNoId currentTab then
        {| analysis := analysis state; loading := loading state;
           error := Some (codes "No active tab found");
           lastAnalyzed := lastAnalyzed state |}
      else
        match analyzeSteps tab extracted analysed stored with
        | Returned a =>
            {| analysis := a; loading := false; error := None;
               lastAnalyzed := urlOrNull (tabUrl tab) |}
        | Thrown errorMessage =>
            {| analysis := None; loading := false; error := Some errorMessage;
               lastAnalyzed := lastAnalyzed state |}
        end
  | None =>
      {| analysis := analysis state; loading := loading state;
         error := Some (codes "No active tab found");
         lastAnalyzed := lastAnalyzed state |}
  end.

(** The popup asking the background service of this file: the second
    message is answered by [onBackgroundMessage]. *)
Definition askBackground {A : Type} (s : AIService A) (clk : Clock)
    (backend : Completion A) (d : option ExtractedData) : Transport A :=
  match (onBackgroundMessage s
           {| messageType := codes "ANALYZE_CONTENT"; messageData := d;
              messageUrl := None |} clk backend).1.1 with
  | Some response => Delivered response
  | None => Unanswered
  end.
End Messaging.

Arguments analysis {A} _.
Arguments loading {A} _.
Arguments error {A} _.
Arguments lastAnalyzed {A} _.

(** ** The configuration (lib/config.ts) *)

(** A string in a condition: [undefined] and the empty string are falsy. *)
Definition truthyString (s : option jsstring) : bool :=
  match s with
  | Some s => negb (bool_decide (s = []))
  | None => false
  end.

(** [s !== literal] for a string that may be [undefined]. *)
Definition differsFrom (s : option jsstring) (literal : string) : bool :=
  negb (bool_decide (s = Some (codes literal))).

Record Config := {
  isDevelopment : bool;
  openaiApiKey : option jsstring;
  anthropicApiKey : option jsstring;
  backendUrl : option jsstring
}.

(** The [config] object, from the two constants the build rewrites and the
    environment. *)
Definition makeConfig (NODE_ENV : option jsstring)
    (INJECTED_OPENAI_KEY INJECTED_ANTHROPIC_KEY : jsstring)
    (PLASMO_PUBLIC_BACKEND_URL : option jsstring) : Config :=
  {| isDevelopment := bool_decide (NODE_ENV = Some (codes "development"));
     openaiApiKey :=
       if bool_decide (INJECTED_OPENAI_KEY <> codes "INJECT_OPENAI_KEY_HERE")
       then Some INJECTED_OPENAI_KEY else None;
     anthropicApiKey :=
       if bool_decide (INJECTED_ANTHROPIC_KEY <> codes "INJECT_ANTHROPIC_KEY_HERE")
       then Some INJECTED_ANTHROPIC_KEY else None;
     backendUrl := PLASMO_PUBLIC_BACKEND_URL |}.

Definition hasValidOpenAIKey (config : Config) : bool :=
  truthyString (openaiApiKey config) &&
  differsFrom (openaiApiKey config) "sk-your-openai-api-key-here" &&
  differsFrom (openaiApiKey config) "your-actual-openai-key-here".

Definition hasValidAnthropicKey (config : Config) : bool :=
  truthyString (anthropicApiKey config) &&
  differsFrom (anthropicApiKey config) "your-anthropic-api-key-here" &&
  differsFrom (anthropicApiKey config) "your-actual-anthropic-key-here".

(** ['openai' | 'anthropic' | 'backend' | 'simulation']. *)
Inductive ApiMode := openai | anthropic | backend | simulation.

Definition getApiMode (config : Config) : ApiMode :=
  if negb (isDevelopment config) && truthyString (backendUrl config) then backend
  else if isDevelopment config && hasValidOpenAIKey config then openai
  else if isDevelopment config && hasValidAnthropicKey config then anthropic
  else simulation.

(** ** The choice of an analysis in the service that calls vendors *)

Record Env := {
  NODE_ENV : option jsstring;
  OPENAI_API_KEY : option jsstring;
  ANTHROPIC_API_KEY : option jsstring;
  PLASMO_PUBLIC_BACKEND_URL : option jsstring
}.

(** The tests at the head of the second [simulateAIAnalysis]:
    [callSecureBackend], [callOpenAIDirect], [callAnthropicDirect] or the
    simulation. *)
Definition analysisRoute (env : Env) : ApiMode :=
  let isDevelopment := bool_decide (NODE_ENV env = Some (codes "development")) in
  let openaiKey := OPENAI_API_KEY env in
  let anthropicKey := ANTHROPIC_API_KEY env in
  let backendUrl := PLASMO_PUBLIC_BACKEND_URL env in
  if negb isDevelopment && truthyString backendUrl then backend
  else if isDevelopment && truthyString openaiKey &&
          differsFrom openaiKey "sk-your-openai-api-key-here" then openai
  else if isDevelopment && truthyString anthropicKey &&
          differsFrom anthropicKey "your-anthropic-api-key-here" then anthropic
  else simulation.



(** ** The content script (SaasContentExtractor) *)

(** [s.trim()]: white space and line ends taken off both ends. *)
Fixpoint trimStart (s : jsstring) : jsstring :=
  match s with
  | [] => []
  | c :: rest => if isWhiteSpace c then trimStart rest else s
  end.

Definition trim (s : jsstring) : jsstring :=
  reverse (trimStart (reverse (trimStart s))).

(** An [input], [textarea] or [select] of a form, with what the queries of
    [findFieldLabel] find for it: the attributes, [None] when absent, and
    the text of the [label] elements, [None] when there is none. *)
Record FieldElement := {
  elementName : jsstring;
  elementId : jsstring;
  elementType : jsstring;
  elementTagName : jsstring;
  elementValue : jsstring;
  ariaLabel : option jsstring;
  labelForText : option jsstring;
  closestLabelText : option jsstring;
  placeholder : option jsstring
}.

Record FormElement := {
  formId : jsstring;
  formAction : jsstring;
  formElements : list FieldElement
}.

(** The page as the extractor reads it: the result of each of its
    queries.  [querySelector] gives the text of the first element that
    matches, [strippedBodyText] the text of the body once the scripts,
    styles, navigation, header, footer and advertisements are removed from
    its clone. *)
Record Document := {
  documentTitle : jsstring;
  href : jsstring;
  hostname : jsstring;
  querySelector : jsstring -> option jsstring;
  bodyTextContent : option jsstring;
  strippedBodyText : option jsstring;
  documentForms : list FormElement;
  dataViewCount : nat;
  interactiveCount : nat
}.

Definition platforms : list (jsstring * jsstring) :=
  map (fun p => (codes p.1, codes p.2))
    [("notion.so", "notion"); ("airtable.com", "airtable");
     ("salesforce.com", "salesforce"); ("hubspot.com", "hubspot");
     ("gmail.com", "gmail"); ("slack.com", "slack");
     ("trello.com", "trello"); ("asana.com", "asana")]%string.

Definition platformSelectors : list (jsstring * list jsstring) :=
  map (fun p => (codes p.1, map codes p.2))
    [("notion", [".notion-page-content"; "[data-block-id]"; ".notion-scroller"]);
     ("airtable", [".grid-container"; ".record-container"; ".form-container"]);
     ("salesforce", [".forceRecordLayout"; ".slds-grid"; ".oneContent"]);
     ("gmail", [".ii"; ".a3s"; ".im"]);
     ("slack", [".p-rich_text_section"; ".c-message__body"; ".p-message_pane"])
    ]%string.

(** The selectors of an unknown platform; the second is [role="main"] in
    brackets, 34 being the code unit of the double quote. *)
Definition unknownSelectors : list jsstring :=
  [codes "main"; codes "[role=" ++ [34] ++ codes "main" ++ [34] ++ codes "]";
   codes ".content"; codes "#content"; codes "article"].

Definition findFieldLabel (field : FieldElement) : jsstring :=
  if truthyString (ariaLabel field) then default [] (ariaLabel field)
  else
    match labelForText field with
    | Some text => trim text
    | None =>
        match closestLabelText field with
        | Some text => trim text
        | None => default [] (placeholder field)
        end
    end.

Definition fallbackContentExtraction (doc : Document) : jsstring :=
  match strippedBodyText doc with
  | Some text => take 2000 text
  | None => []
  end.

(** The loop of [extractMainContent] over the selectors. *)
Fixpoint firstLongText (doc : Document) (selectors : list jsstring)
    : option jsstring :=
  match selectors with
  | [] => None
  | selector :: rest =>
      match querySelector doc selector with
      | Some text =>
          if bool_decide (text = []) then firstLongText doc rest
          else
            let content := trim text in
            if (50 <? length content)%nat then Some (take 2000 content)
            else firstLongText doc rest
      | None => firstLongText doc rest
      end
  end.

Definition extractMainContent (platform : jsstring) (doc : Document) : jsstring :=
  let selectors :=
    match list_find (fun p => p.1 = platform) platformSelectors with
    | Some (_, (_, selectors)) => selectors
    | None => unknownSelectors
    end in
  match firstLongText doc selectors with
  | Some content => content
  | None => fallbackContentExtraction doc
  end.

Definition hasManyInteractiveElements (doc : Document) : bool :=
  (5 <? interactiveCount doc)%nat.

Section ContentScript.
Variable toLowerCase : jsstring -> jsstring.

Definition detectPlatform (doc : Document) : jsstring :=
  let hostname := toLowerCase (hostname doc) in
  match find (fun p => includes hostname p.1) platforms with
  | Some (_, platform) => platform
  | None => codes "unknown"
  end.

Definition extractFormField (input : FieldElement) : FormField :=
  {| name := orString (elementName input) (orString (elementId input) []);
     type := orString (elementType input) (toLowerCase (elementTagName input));
     value := if bool_decide (elementType input = codes "password")
              then codes "[HIDDEN]"
              else orString (elementValue input) [];
     label := findFieldLabel input |}.

Definition extractFormFields (form : FormElement) : list FormField :=
  map extractFormField (formElements form).

Definition extractForms (doc : Document) : list FormData :=
  imap (fun index form =>
          {| id := orString (formId form) (codes "form-" ++ showNat index);
             action := orString (formAction form) [];
             fields := extractFormFields form |})
    (documentForms doc).

Definition determineContentType (doc : Document) : jsstring :=
  let url := toLowerCase (href doc) in
  let content :=
    match bodyTextContent doc with
    | Some text => toLowerCase text
    | None => []
    end in
  if includes url (codes "dashboard") || includes content (codes "dashboard")
  then codes "dashboard"
  else if includes url (codes "form") || (0 <? length (documentForms doc))%nat
  then codes "form"
  else if includes url (codes "settings") || includes content (codes "settings")
  then codes "settings"
  else if includes url (codes "profile") || includes content (codes "profile")
  then codes "profile"
  else if (0 <? dataViewCount doc)%nat then codes "data-view"
  else codes "content".

Definition extractMetadata (platform : jsstring) (doc : Document) : PageMetadata :=
  let content := extractMainContent platform doc in
  {| platform := platform;
     contentType := determineContentType doc;
     wordCount := Z.of_nat (splitLength content);
     hasInteractiveElements := hasManyInteractiveElements doc |}.

Definition extractPageData (doc : Document) (now : Z) : ExtractedData :=
  let platform := detectPlatform doc in
  {| title := documentTitle doc;
     url := href doc;
     mainContent := extractMainContent platform doc;
     forms := extractForms doc;
     metadata := extractMetadata platform doc;
     extractedAt := now |}.
End ContentScript.

(** A login page of a Notion workspace. *)
Definition loginPage : Document :=
  {| documentTitle := codes "Log in";
     href := codes "https://www.notion.so/login";
     hostname := codes "www.Notion.so";
     querySelector := fun _ => None;
     bodyTextContent := Some (codes "Log in to your workspace");
     strippedBodyText := Some (codes "Log in to your workspace");
     documentForms :=
       [{| formId := [];
           formAction := codes "https://www.notion.so/login";
           formElements :=
             [{| elementName := codes "email"; elementId := codes "email";
                 elementType := codes "email"; elementTagName := codes "INPUT";
                 elementValue := codes "ann@example.com";
                 ariaLabel := None; labelForText := Some (codes " Email ");
                 closestLabelText := None; placeholder := None |};
              {| elementName := codes "password"; elementId := codes "pw";
                 elementType := codes "password"; elementTagName := codes "INPUT";
                 elementValue := codes "hunter2";
                 ariaLabel := Some (codes "Password"); labelForText := None;
                 closestLabelText := None; placeholder := None |}] |}];
     dataViewCount := 0;
     interactiveCount := 3 |}.

(** ** ExtensionStorage, over the key-value store of the extension

    The store of Plasmo is taken as the finite map it presents: [set]
    inserts, [get] looks up, [remove] deletes and [getAll] lists the keys. *)

(** The key [`analysis_${url}`]. *)
Definition analysisKey (url : jsstring) : jsstring := codes "analysis_" ++ url.

Definition lastAnalyzedUrlKey : jsstring := codes "lastAnalyzedUrl".

Definition setAnalysis (url : jsstring) (analysis : JSValue)
    (storage : gmap jsstring JSValue) : gmap jsstring JSValue :=
  <[lastAnalyzedUrlKey := JString url]> (<[analysisKey url := analysis]> storage).

Definition getAnalysis (url : jsstring) (storage : gmap jsstring JSValue)
    : option JSValue :=
  storage !! analysisKey url.

Definition getLastAnalyzedUrl (storage : gmap jsstring JSValue) : option JSValue :=
  storage !! lastAnalyzedUrlKey.

(** [clearAnalysis(url?)]: one analysis, or with no [url] every key that
    starts with 'analysis_', one [remove] after the other, and then
    'lastAnalyzedUrl'. *)
Definition clearAnalysis (url : option jsstring)
    (storage : gmap jsstring JSValue) : gmap jsstring JSValue :=
  if truthyString url then delete (analysisKey (default [] url)) storage
  else
    let keys := map fst (map_to_list storage) in
    let analysisKeys := List.filter (isPrefixOf (codes "analysis_")) keys in
    delete lastAnalyzedUrlKey
      (fold_left (fun storage key => delete key storage) analysisKeys storage).

Definition setSettings (settings : JSValue) (storage : gmap jsstring JSValue)
    : gmap jsstring JSValue :=
  <[codes "settings" := settings]> storage.

(** [await storage.get('settings') || {}]. *)
Definition getSettings (storage : gmap jsstring JSValue) : JSValue :=
  orElse (storage !! codes "settings") (JObject []).

(** A store with two analyses, the settings and a key of another module. *)
Definition sampleStorage : gmap jsstring JSValue :=
  setSettings (JObject [(codes "theme", str "dark")])
    (setAnalysis (codes "https://a.example/") (str "first")
       (setAnalysis (codes "https://b.example/") (str "second")
          {[ codes "installedAt" := JNumber 1 ]})).

(** ** ExtensionUtils: messages sent with retries *)

(** The errors the utilities raise and the popup tells apart: the two
    classes of their own, and any other [Error]. *)
Inductive Raised :=
| ExtensionContextError (message : jsstring)
| ContentScriptError (message : jsstring)
| OtherError (message : jsstring).

Inductive Outcome (X : Type) : Type :=
| Resolved (x : X)
| Failed (e : Raised).
Arguments Resolved {X} x.
Arguments Failed {X} e.

(** One turn of the loop: [isContextValid()] is false, or the race
    between the message and its timer settles. *)
Inductive Attempt (X : Type) : Type :=
| Invalidated
| Settles (c : Completion X).
Arguments Invalidated {X}.
Arguments Settles {X} c.

Definition attemptResult {X : Type} (a : Attempt X) : Completion X :=
  match a with
  | Invalidated => Thrown (codes "Extension context invalidated")
  | Settles c => c
  end.

(** The error [sendMessage] ends with when the last attempt fails. *)
Definition lastMessageError (message : jsstring) : Raised :=
  if includes message (codes "Extension context invalidated")
  then ExtensionContextError (codes "Extension was reloaded. Please try again.")
  else OtherError message.

(** The same for [sendTabMessage]. *)
Definition lastTabMessageError (message : jsstring) : Raised :=
  if includes message (codes "Extension context invalidated")
  then ExtensionContextError (codes "Extension was reloaded. Please try again.")
  else if includes message (codes "Receiving end does not exist")
  then ContentScriptError
         (codes "Content script not ready. Please refresh the page and try again.")
  else OtherError message.

(** The loop [for (attempt = 0; attempt <= retries; attempt++)] from
    [attempt] on, [remaining] being [retries - attempt]: how it ends and
    the delays it waited, in milliseconds. *)
Fixpoint retryFrom {X : Type} (lastError : jsstring -> Raised)
    (attempts : nat -> Attempt X) (remaining attempt : nat)
    : Outcome X * list Z :=
  match attemptResult (attempts attempt) with
  | Returned result => (Resolved result, [])
  | Thrown message =>
      match remaining with
      | O => (Failed (lastError message), [])
      | S remaining =>
          let '(outcome, waits) :=
            retryFrom lastError attempts remaining (S attempt) in
          (outcome, 500 * (Z.of_nat attempt + 1) :: waits)
      end
  end.

Definition sendMessage {X : Type} (retries : nat) (attempts : nat -> Attempt X)
    : Outcome X * list Z :=
  retryFrom lastMessageError attempts retries 0.

Definition sendTabMessage {X : Type} (retries : nat) (attempts : nat -> Attempt X)
    : Outcome X * list Z :=
  retryFrom lastTabMessageError attempts retries 0.

(** The delays before the attempts 1 to [n]: 500 ms, 1000 ms, ... *)
Definition backoff (n : nat) : list Z :=
  map (fun attempt => 500 * (Z.of_nat attempt + 1)) (seq 0 n).

(** ** The popup that talks through ExtensionUtils *)

Section SafePopup.
Variable typeError : jsstring -> jsstring.

(** [response.data] and [analysisResponse.analysis]: the property, if the
    response has it. *)
Definition payloadOf {X : Type} (response : Response X) : option X :=
  match response with
  | Success payload => Some payload
  | _ => None
  end.

(** The part inside [try] of the [analyzeCurrentPage] of this popup.  The two
    sends resolve to what the listener answered, [None] standing for
    [undefined]; the write to the storage is made when the tab has a url. *)
Definition analyzeStepsWithUtils {A : Type} (tab : Tab)
    (extracted : Outcome (option (Response ExtractedData)))
    (analysed : option ExtractedData -> Outcome (option (Response A)))
    (stored : option jsstring) : Outcome (option A) :=
  match extracted with
  | Failed e => Failed e
  | Resolved None => Failed (OtherError (typeError (codes "data")))
  | Resolved (Some response) =>
      match analysed (payloadOf response) with
      | Failed e => Failed e
      | Resolved None => Failed (OtherError (typeError (codes "analysis")))
      | Resolved (Some analysisResponse) =>
          let analysis := payloadOf analysisResponse in
          if truthyString (tabUrl tab) then
            match stored with
            | Some message => Failed (OtherError message)
            | None => Resolved analysis
            end
          else Resolved analysis
      end
  end.

(** The message the popup shows for an error. *)
Definition shownMessage (e : Raised) : jsstring :=
  match e with
  | ExtensionContextError _ => codes "Extension was reloaded. Please try again."
  | ContentScriptError _ =>
      codes "Content script not ready. Please refresh the page and try again."
  | OtherError message => message
  end.

Definition analyzeCurrentPageWithUtils {A : Type} (state : AnalysisState A)
    (currentTab : option Tab)
    (extracted : Outcome (option (Response ExtractedData)))
    (analysed : option ExtractedData -> Outcome (option (Response A)))
    (stored : option jsstring) : AnalysisState A :=
  match currentTab with
  | Some tab =>
      if hasNoId currentTab then
        {| analysis := analysis state; loading := loading state;
           error := Some (codes "No active tab found");
           lastAnalyzed := lastAnalyzed state |}
      else
        match analyzeStepsWithUtils tab extracted analysed stored with
        | Resolved a =>
            {| analysis := a; loading := false; error := None;
               lastAnalyzed := urlOrNull (tabUrl tab) |}
        | Failed e =>
            {| analysis := None; loading := false;
               error := Some (shownMessage e);
               lastAnalyzed := lastAnalyzed state |}
        end
  | None =>
      {| analysis := analysis state; loading := loading state;
         error := Some (codes "No active tab found");
         lastAnalyzed := lastAnalyzed state |}
  end.

(** [ExtensionUtils.sendMessage] resolving, at its first attempt, to what
    the background service of this file answers. *)
Definition askBackgroundWithUtils {A : Type} (s : AIService A) (clk : Clock)
    (backend : Completion A) (d : option ExtractedData)
    : Outcome (option (Response A)) :=
  (sendMessage 2 (fun _ =>
     Settles (Returned (onBackgroundMessage typeError s
                          {| messageType := codes "ANALYZE_CONTENT";
                             messageData := d; messageUrl := None |}
                          clk backend).1.1))).1.
End SafePopup.

(** A tab on a page of Notion. *)
Definition notionTab : Tab :=
  {| tabId := Some 7; tabUrl := Some (codes "https://www.notion.so/roadmap") |}.

(** A popup that has shown nothing yet. *)
Definition idleState : AnalysisState ContentAnalysis :=
  {| analysis := None; loading := false; error := None; lastAnalyzed := None |}.

(** The host's message for reading a property of [undefined]. *)
Definition v8TypeError (property : jsstring) : jsstring :=
  codes "Cannot read properties of undefined (reading '" ++ property ++ codes "')".

(** Two attempts that fail and a third that is answered. *)
Definition thirdTimeLucky (attempt : nat) : Attempt JSValue :=
  match attempt with
  | 0%nat => Settles (Thrown (codes "Message timeout"))
  | 1%nat => Invalidated
  | _ => Settles (Returned (str "pong"))
  end.

(** ** Successive rate-limit checks *)

(** How many of the checks made at the given clock readings, one after the
    other, are admitted. *)
Fixpoint admissions (rl : gmap jsstring RateLimitEntry) (times : list Z) : nat :=
  match times with
  | [] => 0%nat
  | now :: times =>
      let '(allowed, rl) := checkRateLimit rl now in
      ((if allowed then 1 else 0) + admissions rl times)%nat
  end.

(** The admissions a limiter can still grant to checks made from [lo] on
    and no later than [lo + 60000]: what is left of the current window, and
    a whole new window when the current one was opened before [lo]. *)
Definition budget (lo : Z) (rl : gmap jsstring RateLimitEntry) : Z :=
  match rl !! userKey with
  | None => RATE_LIMIT
  | Some entry =>
      Z.max 0 (RATE_LIMIT - count entry) +
      (if lo <=? timestamp entry then 0 else RATE_LIMIT)
  end.

(** A limiter as the service keeps it: the one key of the caller, counted
    from 1. *)
Definition singleTenant (rl : gmap jsstring RateLimitEntry) : Prop :=
  forall key entry, rl !! key = Some entry -> key = userKey /\ 1 <= count entry.

(** ** Concrete inputs *)

(** The case functions of the host on text within ASCII. *)
Definition asciiLower (s : jsstring) : jsstring :=
  map (fun c => if (65 <=? c) && (c <=? 90) then c + 32 else c) s.

Definition asciiUpper (s : jsstring) : jsstring :=
  map (fun c => if (97 <=? c) && (c <=? 122) then c - 32 else c) s.

(** A page of a known platform with the given text. *)
Definition pageOf (text : string) : ExtractedData :=
  {| title := codes "Roadmap";
     url := codes "https://www.notion.so/roadmap";
     mainContent := codes text;
     forms := [];
     metadata := {| platform := codes "notion";
                    contentType := codes "document";
                    wordCount := 2;
                    hasInteractiveElements := false |};
     extractedAt := 0 |}.

(** A call that starts at [t] and whose analysis takes 1500 ms. *)
Definition clockAt (t : Z) : Clock :=
  {| nowLookup := t; nowLimit := t; nowStore := t + 1500 |}.

(** The simulated service after it analysed ["hello world"] at time 0. *)
Definition warmService : AIService ContentAnalysis :=
  (simulatedCall asciiLower asciiUpper newAIService (pageOf "hello world")
     (clockAt 0)).2.

Definition helloAnalysis : ContentAnalysis :=
  simulateAIAnalysis asciiLower asciiUpper (pageOf "hello world").

(** A service whose window, opened at time 0, is saturated. *)
Definition saturatedService : AIService ContentAnalysis :=
  {| rateLimiter := {[ userKey := {| timestamp := 0; count := 10 |} ]};
     cache := ∅ |}.

(** The reply
    [{"summary": "Quarterly figures", "sentiment": "mixed", "confidence": 5}]
    once parsed: its confidence and its sentiment are outside what the
    interface declares. *)
Definition oddReply : Decoded :=
  Parsed [(codes "summary", str "Quarterly figures");
          (codes "sentiment", str "mixed");
          (codes "confidence", JNumber 5)].

(** Eleven pages with different texts, asked for 100 ms apart. *)
Definition elevenTexts : list string :=
  ["page 0"; "page 1"; "page 2"; "page 3"; "page 4"; "page 5"; "page 6";
   "page 7"; "page 8"; "page 9"; "page 10"]%string.

Definition simulatedCallOf (text : string) (t : Z) : Call ContentAnalysis :=
  {| callData := pageOf text;
     callClock := clockAt t;
     callBackend := Returned (simulateAIAnalysis asciiLower asciiUpper (pageOf text)) |}.

Definition elevenCalls : list (Call ContentAnalysis) :=
  imap (fun i text => simulatedCallOf text (100 * Z.of_nat i)) elevenTexts.

Definition elevenAnalyses : list ContentAnalysis :=
  map (fun text => simulateAIAnalysis asciiLower asciiUpper (pageOf text))
    elevenTexts.

(** The entry the warm service holds for ["hello world"]. *)
Definition helloCached : CacheEntry ContentAnalysis :=
  {| data := helloAnalysis; cachedAt := 1500 |}.

(** The entry of a window opened at time 0 and used up. *)
Definition fullWindow : RateLimitEntry := {| timestamp := 0; count := 10 |}.

(** A window opened at time 0 with one call counted, and checks made as it
    runs out and just after. *)
Definition lateWindow : gmap jsstring RateLimitEntry :=
  {[ userKey := {| timestamp := 0; count := 1 |} ]}.

Definition burstTimes : list Z :=
  repeat 60000 9 ++ repeat 60001 10 ++ repeat 60002 5.

(** * Properties *)

(** ** The content hash *)

Lemma ToInt32_wraps x : exists k, ToInt32 x = x + k * 2 ^ 32.
Proof.
  unfold ToInt32. cbv zeta.
  pose proof (Z.div_mod x (2 ^ 32) ltac:(lia)) as E.
  destruct (2 ^ 31 <=? x mod 2 ^ 32).
  - exists (- (x / 2 ^ 32) - 1). lia.
  - exists (- (x / 2 ^ 32)). lia.
Qed.

Lemma ToInt32_congruent x y k : x = y + k * 2 ^ 32 -> ToInt32 x = ToInt32 y.
Proof.
  intros ->. unfold ToInt32. now rewrite Z_mod_plus_full.
Qed.

Lemma hashStep_reference hash char : hashStep hash char = referenceStep hash char.
Proof.
  unfold hashStep, referenceStep, band, shl. cbv zeta.
  rewrite Z.land_diag.
  change (Z.land 5 31) with 5. rewrite Z.shiftl_mul_pow2 by lia.
  destruct (ToInt32_wraps hash) as [k1 E1].
  destruct (ToInt32_wraps (ToInt32 hash * 2 ^ 5)) as [k2 E2].
  apply (ToInt32_congruent _ _ (32 * k1 + k2)). lia.
Qed.

Lemma hashLoop_reference content acc :
  fold_left hashStep content acc = fold_left referenceStep content acc.
Proof.
  revert acc. induction content as [|c content IH]; intros acc; simpl.
  - reflexivity.
  - rewrite hashStep_reference. apply IH.
Qed.

(** C7: [generateContentHash] is a function of the text alone, equal
    texts hash alike, and it is the reference hash: the fold of
    [hash * 31 + charCode] truncated to a signed 32-bit integer, printed
    in decimal. *)
Theorem generateContentHash_reference (a b : jsstring) :
  generateContentHash a = referenceHash a /\
  (a = b -> generateContentHash a = generateContentHash b).
Proof.
  split.
  - unfold generateContentHash, referenceHash, hashLoop.
    now rewrite hashLoop_reference.
  - now intros ->.
Qed.

Lemma generateContentHash_reference_witness :
  generateContentHash (codes "hello world") = referenceHash (codes "hello world") /\
  (codes "hello world" = codes "hello world" ->
   generateContentHash (codes "hello world") = generateContentHash (codes "hello world")).
Proof. apply generateContentHash_reference. Defined.

Example generateContentHash_hello :
  generateContentHash (codes "hello world") = codes "1794106052".
Proof. vm_compute. reflexivity. Qed.

Example generateContentHash_wraps :
  generateContentHash (codes "Hello, World! This is a long text") = codes "-35266957".
Proof. vm_compute. reflexivity. Qed.

(** ** The rate limiter *)

Lemma cleanOldEntries_keeps rl windowStart key entry :
  rl !! key = Some entry -> ~ (timestamp entry < windowStart) ->
  cleanOldEntries windowStart rl !! key = Some entry.
Proof.
  intros Hin Hfresh. unfold cleanOldEntries.
  apply map_lookup_filter_Some. split; [exact Hin | exact Hfresh].
Qed.

Lemma cleanOldEntries_drops rl windowStart key entry :
  rl !! key = Some entry -> timestamp entry < windowStart ->
  cleanOldEntries windowStart rl !! key = None.
Proof.
  intros Hin Hstale. unfold cleanOldEntries.
  apply map_lookup_filter_None. right. intros e He. simpl.
  rewrite Hin in He. injection He as <-. lia.
Qed.

Lemma cleanOldEntries_absent rl windowStart key :
  rl !! key = None -> cleanOldEntries windowStart rl !! key = None.
Proof.
  intros Hnone. unfold cleanOldEntries.
  apply map_lookup_filter_None. now left.
Qed.

Lemma cleanOldEntries_inside rl windowStart key entry :
  cleanOldEntries windowStart rl !! key = Some entry -> rl !! key = Some entry.
Proof.
  unfold cleanOldEntries. intros H.
  apply map_lookup_filter_Some in H. tauto.
Qed.

(** [checkRateLimit], by the state of the caller's window. *)
Lemma checkRateLimit_fresh rl now :
  activeEntry rl now = None ->
  checkRateLimit rl now =
    (true, <[userKey := {| timestamp := now; count := 1 |}]>
             (cleanOldEntries (now - 60000) rl)).
Proof. unfold activeEntry, checkRateLimit. cbv zeta. now intros ->. Qed.

Lemma checkRateLimit_under rl now entry :
  activeEntry rl now = Some entry -> count entry < RATE_LIMIT ->
  checkRateLimit rl now =
    (true, <[userKey := {| timestamp := timestamp entry; count := count entry + 1 |}]>
             (cleanOldEntries (now - 60000) rl)).
Proof.
  unfold activeEntry, checkRateLimit. cbv zeta. intros -> Hlt.
  destruct (Z.geb_spec (count entry) RATE_LIMIT); [lia | reflexivity].
Qed.

Lemma checkRateLimit_saturated rl now entry :
  activeEntry rl now = Some entry -> count entry >= RATE_LIMIT ->
  checkRateLimit rl now = (false, cleanOldEntries (now - 60000) rl).
Proof.
  unfold activeEntry, checkRateLimit. cbv zeta. intros -> Hge.
  destruct (Z.geb_spec (count entry) RATE_LIMIT); [reflexivity | lia].
Qed.

Lemma withinLimit_clean rl windowStart :
  withinLimit rl -> withinLimit (cleanOldEntries windowStart rl).
Proof.
  intros Hrl key entry H. apply (Hrl key). eapply cleanOldEntries_inside, H.
Qed.

Lemma withinLimit_insert rl key entry :
  withinLimit rl -> count entry <= RATE_LIMIT -> withinLimit (<[key := entry]> rl).
Proof.
  intros Hrl Hle k e. rewrite lookup_insert. case_decide.
  - intros [= <-]. exact Hle.
  - apply Hrl.
Qed.

Lemma withinLimit_checkRateLimit rl now :
  withinLimit rl -> withinLimit (checkRateLimit rl now).2.
Proof.
  intros Hrl. pose proof (withinLimit_clean rl (now - 60000) Hrl) as Hclean.
  destruct (activeEntry rl now) as [entry|] eqn:E.
  - destruct (Z_lt_ge_dec (count entry) RATE_LIMIT) as [Hlt|Hge].
    + rewrite (checkRateLimit_under _ _ _ E Hlt). simpl.
      apply withinLimit_insert; [exact Hclean | simpl; lia].
    + rewrite (checkRateLimit_saturated _ _ _ E Hge). exact Hclean.
  - rewrite (checkRateLimit_fresh _ _ E). simpl.
    apply withinLimit_insert; [exact Hclean | simpl; unfold RATE_LIMIT; lia].
Qed.

(** ** The coordinator *)

Section CoordinatorFacts.
Context {A : Type}.
Implicit Types (s : AIService A) (d : ExtractedData) (clk : Clock).
Implicit Types (backend : Completion A).

(** What a call does on a cache miss. *)
Lemma beforeAwait_miss s d clk :
  cacheMiss s d clk ->
  beforeAwait s d clk =
    let '(allowed, rl) := checkRateLimit (rateLimiter s) (nowLimit clk) in
    let s' := {| rateLimiter := rl; cache := cache s |} in
    if allowed then (Awaiting (generateContentHash (mainContent d)), s')
    else (Settled (Thrown rateLimitMessage), s').
Proof.
  unfold cacheMiss, beforeAwait. cbv zeta.
  destruct (cache s !! generateContentHash (mainContent d)) as [cached|];
    [|reflexivity].
  intros Hold.
  destruct (Z.ltb_spec (nowLookup clk - cachedAt cached) CACHE_DURATION);
    [lia | reflexivity].
Qed.

Lemma beforeAwait_hit s d clk cached :
  cache s !! generateContentHash (mainContent d) = Some cached ->
  nowLookup clk - cachedAt cached < CACHE_DURATION ->
  beforeAwait s d clk = (Settled (Returned (data cached)), s).
Proof.
  unfold beforeAwait. cbv zeta. intros -> Hlive.
  destruct (Z.ltb_spec (nowLookup clk - cachedAt cached) CACHE_DURATION);
    [reflexivity | lia].
Qed.

Lemma handle_miss_allowed s d clk backend rl :
  cacheMiss s d clk ->
  checkRateLimit (rateLimiter s) (nowLimit clk) = (true, rl) ->
  handleContentAnalysis s d clk backend =
    afterAwait {| rateLimiter := rl; cache := cache s |}
      (generateContentHash (mainContent d)) backend (nowStore clk).
Proof.
  intros Hmiss Hok. unfold handleContentAnalysis.
  rewrite (beforeAwait_miss _ _ _ Hmiss), Hok. reflexivity.
Qed.

Lemma handle_miss_rejected s d clk backend rl :
  cacheMiss s d clk ->
  checkRateLimit (rateLimiter s) (nowLimit clk) = (false, rl) ->
  handleContentAnalysis s d clk backend =
    (Thrown rateLimitMessage, {| rateLimiter := rl; cache := cache s |}).
Proof.
  intros Hmiss Hno. unfold handleContentAnalysis.
  rewrite (beforeAwait_miss _ _ _ Hmiss), Hno. reflexivity.
Qed.

Lemma handle_hit s d clk backend cached :
  cache s !! generateContentHash (mainContent d) = Some cached ->
  nowLookup clk - cachedAt cached < CACHE_DURATION ->
  handleContentAnalysis s d clk backend = (Returned (data cached), s).
Proof.
  intros Hc Hlive. unfold handleContentAnalysis.
  now rewrite (beforeAwait_hit _ _ _ _ Hc Hlive).
Qed.

(** A call either hits the cache or misses it. *)
Lemma hit_or_miss s d clk :
  (exists cached,
      cache s !! generateContentHash (mainContent d) = Some cached /\
      nowLookup clk - cachedAt cached < CACHE_DURATION) \/
  cacheMiss s d clk.
Proof.
  unfold cacheMiss.
  destruct (cache s !! generateContentHash (mainContent d)) as [cached|];
    [|now right].
  destruct (Z_lt_ge_dec (nowLookup clk - cachedAt cached) CACHE_DURATION).
  - left. now exists cached.
  - now right.
Qed.

Lemma withinLimit_beforeAwait s d clk :
  withinLimit (rateLimiter s) -> withinLimit (rateLimiter (beforeAwait s d clk).2).
Proof.
  intros Hs. destruct (hit_or_miss s d clk) as [(cached & Hc & Hlive)|Hmiss].
  - now rewrite (beforeAwait_hit _ _ _ _ Hc Hlive).
  - rewrite (beforeAwait_miss _ _ _ Hmiss).
    pose proof (withinLimit_checkRateLimit _ (nowLimit clk) Hs) as H.
    destruct (checkRateLimit (rateLimiter s) (nowLimit clk)) as [[|] rl]; exact H.
Qed.

Lemma withinLimit_afterAwait s contentHash backend now :
  withinLimit (rateLimiter s) ->
  withinLimit (rateLimiter (afterAwait s contentHash backend now).2).
Proof. intros Hs. destruct backend; exact Hs. Qed.

Lemma withinLimit_handle s d clk backend :
  withinLimit (rateLimiter s) ->
  withinLimit (rateLimiter (handleContentAnalysis s d clk backend).2).
Proof.
  intros Hs. unfold handleContentAnalysis.
  pose proof (withinLimit_beforeAwait s d clk Hs) as H.
  destruct (beforeAwait s d clk) as [[c|contentHash] s']; simpl in *.
  - exact H.
  - now apply withinLimit_afterAwait.
Qed.

Lemma reachable_handle s d clk backend :
  reachable s -> reachable (handleContentAnalysis s d clk backend).2.
Proof.
  intros Hs. unfold handleContentAnalysis.
  pose proof (reachable_before s d clk Hs) as H.
  destruct (beforeAwait s d clk) as [[c|contentHash] s']; simpl in *.
  - exact H.
  - now apply reachable_after.
Qed.

(** C1: a call whose content hash has a cache entry younger than
    [CACHE_DURATION] returns the stored analysis and leaves the service as
    it was; this for every rate limiter the service may hold, so the call
    neither reads nor changes it and consumes no budget. *)
Theorem cache_hit_spares_limiter s d clk backend cached :
  cache s !! generateContentHash (mainContent d) = Some cached ->
  nowLookup clk - cachedAt cached < CACHE_DURATION ->
  forall rl,
    handleContentAnalysis {| rateLimiter := rl; cache := cache s |} d clk backend =
      (Returned (data cached), {| rateLimiter := rl; cache := cache s |}).
Proof.
  intros Hc Hlive rl. now apply handle_hit.
Qed.

(** C3: in every reachable state of the service each window entry
    has [count <= RATE_LIMIT], and a call from such a state, whether it
    returns or throws, leaves such a state. *)
Theorem count_stays_within_limit s :
  reachable s ->
  withinLimit (rateLimiter s) /\
  forall d clk backend,
    withinLimit (rateLimiter (handleContentAnalysis s d clk backend).2).
Proof.
  intros Hs.
  assert (withinLimit (rateLimiter s)) as Hinv.
  { induction Hs as [|s d clk Hs IH|s contentHash backend now Hs IH].
    - intros key entry H. simpl in H. now rewrite lookup_empty in H.
    - now apply withinLimit_beforeAwait.
    - now apply withinLimit_afterAwait. }
  split; [exact Hinv|]. intros d clk backend. now apply withinLimit_handle.
Qed.

(** C5: a call whose cache entry is absent or at least
    [CACHE_DURATION] old is a miss: the rate limiter is consulted, and when
    it admits the call and the analysis succeeds the result is stored under
    the content hash with the time of the store, replacing any entry of
    that hash, and is what the caller gets. *)
Theorem cache_miss_stores_result s d clk analysis :
  cacheMiss s d clk ->
  (checkRateLimit (rateLimiter s) (nowLimit clk)).1 = true ->
  let contentHash := generateContentHash (mainContent d) in
  let stored := {| data := analysis; cachedAt := nowStore clk |} in
  let s' := (handleContentAnalysis s d clk (Returned analysis)).2 in
  handleContentAnalysis s d clk (Returned analysis) =
    (Returned analysis,
     {| rateLimiter := (checkRateLimit (rateLimiter s) (nowLimit clk)).2;
        cache := <[contentHash := stored]> (cache s) |}) /\
  cache s' !! contentHash = Some stored.
Proof.
  intros Hmiss Hok. cbv zeta.
  destruct (checkRateLimit (rateLimiter s) (nowLimit clk)) as [allowed rl] eqn:E.
  simpl in Hok. subst allowed.
  rewrite (handle_miss_allowed _ _ _ _ _ Hmiss E). simpl.
  split; [reflexivity | apply lookup_insert_eq].
Qed.

(** C6: a cache miss that finds the caller's window active with
    [count >= RATE_LIMIT] throws the rate-limit error before the analysis
    is reached, whatever the analysis would have given; the cache is as it
    was and the active window entry keeps its count and its timestamp. *)
Theorem rejection_keeps_state s d clk backend entry :
  cacheMiss s d clk ->
  rateLimiter s !! userKey = Some entry ->
  ~ (timestamp entry < nowLimit clk - 60000) ->
  count entry >= RATE_LIMIT ->
  let s' := (handleContentAnalysis s d clk backend).2 in
  (beforeAwait s d clk).1 = Settled (Thrown rateLimitMessage) /\
  (handleContentAnalysis s d clk backend).1 = Thrown rateLimitMessage /\
  cache s' = cache s /\
  rateLimiter s' !! userKey = Some entry.
Proof.
  intros Hmiss Hin Hfresh Hfull. cbv zeta.
  pose proof (cleanOldEntries_keeps _ _ _ _ Hin Hfresh) as Hact.
  pose proof (checkRateLimit_saturated _ _ _ Hact Hfull) as E.
  rewrite (handle_miss_rejected _ _ _ _ _ Hmiss E).
  rewrite (beforeAwait_miss _ _ _ Hmiss), E. simpl.
  repeat split; try reflexivity. exact Hact.
Qed.

(** C8: when the analysis throws after the rate limiter admitted the
    call, the call throws the same error, the cache is as it was, and the
    window keeps the admission: the count of the active entry is one
    higher, or a new window stands at count 1. *)
Theorem backend_failure_keeps_admission s d clk e :
  cacheMiss s d clk ->
  (checkRateLimit (rateLimiter s) (nowLimit clk)).1 = true ->
  let s' := (handleContentAnalysis s d clk (Thrown e)).2 in
  (handleContentAnalysis s d clk (Thrown e)).1 = Thrown e /\
  cache s' = cache s /\
  rateLimiter s' !! userKey =
    Some (match activeEntry (rateLimiter s) (nowLimit clk) with
          | Some entry =>
              {| timestamp := timestamp entry; count := count entry + 1 |}
          | None => {| timestamp := nowLimit clk; count := 1 |}
          end).
Proof.
  intros Hmiss Hok. cbv zeta.
  destruct (checkRateLimit (rateLimiter s) (nowLimit clk)) as [allowed rl] eqn:E.
  simpl in Hok. subst allowed.
  rewrite (handle_miss_allowed _ _ _ _ _ Hmiss E). simpl.
  repeat split.
  destruct (activeEntry (rateLimiter s) (nowLimit clk)) as [entry|] eqn:Hact.
  - destruct (Z_lt_ge_dec (count entry) RATE_LIMIT) as [Hlt|Hge].
    + rewrite (checkRateLimit_under _ _ _ Hact Hlt) in E.
      injection E as <-. apply lookup_insert_eq.
    + rewrite (checkRateLimit_saturated _ _ _ Hact Hge) in E. discriminate E.
  - rewrite (checkRateLimit_fresh _ _ Hact) in E.
    injection E as <-. apply lookup_insert_eq.
Qed.

(** C4: on a cache miss at [now], a window entry whose timestamp is
    more than 60000 ms before [now] is dropped whatever its count, also a
    saturated one, the entry [{timestamp: now, count: 1}] takes its place
    and the call is admitted: it goes on to the analysis and settles to
    what the analysis gives. *)
Theorem stale_window_restarts s d clk backend entry :
  cacheMiss s d clk ->
  rateLimiter s !! userKey = Some entry ->
  nowLimit clk - timestamp entry > 60000 ->
  let s' := (handleContentAnalysis s d clk backend).2 in
  (beforeAwait s d clk).1 = Awaiting (generateContentHash (mainContent d)) /\
  (handleContentAnalysis s d clk backend).1 = backend /\
  rateLimiter s' !! userKey = Some {| timestamp := nowLimit clk; count := 1 |}.
Proof.
  intros Hmiss Hin Hstale. cbv zeta.
  assert (activeEntry (rateLimiter s) (nowLimit clk) = None) as Hact.
  { eapply cleanOldEntries_drops; [exact Hin | lia]. }
  pose proof (checkRateLimit_fresh _ _ Hact) as E.
  rewrite (handle_miss_allowed _ _ _ _ _ Hmiss E).
  rewrite (beforeAwait_miss _ _ _ Hmiss), E. simpl.
  split; [reflexivity|].
  destruct backend; simpl; (split; [reflexivity | apply lookup_insert_eq]).
Qed.

(** C10: when the texts of [a] and [b] have the same content hash, a
    call for [b] made less than [CACHE_DURATION] after the result of a
    call that analysed [a] was stored returns that result from the cache and
    leaves the service, its rate limiter included, as it was. *)
Theorem collision_is_cache_hit s a b clkA clkB backendA backendB analysis :
  generateContentHash (mainContent a) = generateContentHash (mainContent b) ->
  cacheMiss s a clkA ->
  (handleContentAnalysis s a clkA backendA).1 = Returned analysis ->
  nowLookup clkB - nowStore clkA < CACHE_DURATION ->
  let s' := (handleContentAnalysis s a clkA backendA).2 in
  handleContentAnalysis s' b clkB backendB = (Returned analysis, s').
Proof.
  intros Hhash Hmiss Hret Hsoon. cbv zeta.
  destruct (checkRateLimit (rateLimiter s) (nowLimit clkA)) as [[|] rl] eqn:E.
  - rewrite (handle_miss_allowed _ _ _ _ _ Hmiss E) in *.
    destruct backendA as [analysis'|e]; simpl in Hret; [|discriminate Hret].
    injection Hret as ->. simpl.
    apply (handle_hit _ _ _ _ {| data := analysis; cachedAt := nowStore clkA |}).
    + simpl. rewrite <- Hhash. apply lookup_insert_eq.
    + exact Hsoon.
  - rewrite (handle_miss_rejected _ _ _ _ _ Hmiss E) in Hret. discriminate Hret.
Qed.

(** Calls that all miss the cache while the caller's window stays active:
    the window admits calls until its count reaches [RATE_LIMIT] and
    rejects the others. *)
Lemma handleAll_in_window (calls : list (Call A)) :
  forall s entry,
    rateLimiter s !! userKey = Some entry ->
    NoDup (map callHash calls) ->
    Forall (fun c => cache s !! callHash c = None) calls ->
    Forall (fun c => nowLimit (callClock c) - timestamp entry <= 60000) calls ->
    (handleAll s calls).1 =
      map callBackend (take (Z.to_nat (RATE_LIMIT - count entry)) calls) ++
      map (fun _ => Thrown rateLimitMessage)
        (drop (Z.to_nat (RATE_LIMIT - count entry)) calls).
Proof.
  induction calls as [|c calls IH]; intros s entry Hin Hdup Hcache Hwin.
  - simpl. now rewrite take_nil, drop_nil.
  - simpl in Hdup. apply NoDup_cons in Hdup as [Hnotin Hdup].
    apply Forall_cons in Hcache as [Hc Hcache].
    apply Forall_cons in Hwin as [Hw Hwin].
    assert (cacheMiss s (callData c) (callClock c)) as Hmiss.
    { unfold cacheMiss. unfold callHash in Hc. now rewrite Hc. }
    assert (activeEntry (rateLimiter s) (nowLimit (callClock c)) = Some entry)
      as Hact.
    { apply cleanOldEntries_keeps; [exact Hin | lia]. }
    cbn [handleAll].
    destruct (Z_lt_ge_dec (count entry) RATE_LIMIT) as [Hlt|Hge].
    + pose proof (checkRateLimit_under _ _ _ Hact Hlt) as E.
      rewrite (handle_miss_allowed _ _ _ _ _ Hmiss E).
      set (entry' := {| timestamp := timestamp entry; count := count entry + 1 |}).
      replace (Z.to_nat (RATE_LIMIT - count entry))
        with (S (Z.to_nat (RATE_LIMIT - count entry'))) by (simpl; lia).
      destruct (afterAwait _ _ (callBackend c) _) as [r s1] eqn:Eafter.
      specialize (IH s1 entry').
      destruct (handleAll s1 calls) as [rs s2]. simpl in *.
      assert (r = callBackend c /\ rateLimiter s1 !! userKey = Some entry' /\
              Forall (fun c0 => cache s1 !! callHash c0 = None) calls)
        as (-> & Hin1 & Hcache1).
      { destruct (callBackend c) as [analysis|e]; simpl in Eafter;
          injection Eafter as <- <-; simpl.
        - split; [reflexivity|]. split; [apply lookup_insert_eq|].
          rewrite Forall_forall in Hcache |- *. intros c0 Hc0.
          rewrite lookup_insert_ne; [now apply Hcache|].
          intros Heq. apply Hnotin. fold (callHash c) in Heq. rewrite Heq.
          apply list_elem_of_fmap. now exists c0.
        - split; [reflexivity|]. split; [apply lookup_insert_eq | exact Hcache]. }
      now rewrite (IH Hin1 Hdup Hcache1 Hwin).
    + pose proof (checkRateLimit_saturated _ _ _ Hact Hge) as E.
      rewrite (handle_miss_rejected _ _ _ _ _ Hmiss E).
      replace (Z.to_nat (RATE_LIMIT - count entry)) with 0%nat by lia.
      specialize (IH {| rateLimiter := cleanOldEntries (nowLimit (callClock c) - 60000)
                                         (rateLimiter s);
                        cache := cache s |} entry Hact Hdup Hcache Hwin).
      replace (Z.to_nat (RATE_LIMIT - count entry)) with 0%nat in IH by lia.
      destruct (handleAll _ calls) as [rs s2]. simpl in *.
      now rewrite IH.
Qed.

(** C2: from an empty rate limiter, eleven calls with distinct
    content hashes, none of them cached, the limiter reading the clock of
    each no later than 60000 ms after that of the first, and every
    analysis succeeding: the first ten return their results and the
    eleventh throws the rate-limit error. *)
Theorem eleventh_call_is_rejected s (first : Call A) (others : list (Call A))
    (analyses : list A) :
  rateLimiter s = ∅ ->
  length others = 10%nat ->
  NoDup (map callHash (first :: others)) ->
  Forall (fun c => cache s !! callHash c = None) (first :: others) ->
  Forall (fun c => nowLimit (callClock c) - nowLimit (callClock first) <= 60000)
    others ->
  map callBackend (first :: others) = map Returned analyses ->
  (handleAll s (first :: others)).1 =
    map Returned (take 10 analyses) ++ [Thrown rateLimitMessage].
Proof.
  intros Hempty Hlen Hdup Hcache Hwin Hok.
  pose proof Hdup as Hdup'. simpl in Hdup'.
  apply NoDup_cons in Hdup' as [Hnotin Hdup'].
  pose proof Hcache as Hcache'.
  apply Forall_cons in Hcache' as [Hc Hcache'].
  assert (cacheMiss s (callData first) (callClock first)) as Hmiss.
  { unfold cacheMiss. unfold callHash in Hc. now rewrite Hc. }
  assert (activeEntry (rateLimiter s) (nowLimit (callClock first)) = None) as Hact.
  { apply cleanOldEntries_absent. rewrite Hempty. apply lookup_empty. }
  pose proof (checkRateLimit_fresh _ _ Hact) as E.
  destruct analyses as [|analysis analyses]; [discriminate Hok|].
  simpl in Hok. injection Hok as Hfirst Hothers.
  cbn [handleAll].
  rewrite (handle_miss_allowed _ _ _ _ _ Hmiss E), Hfirst. simpl afterAwait.
  set (s1 := {| rateLimiter := _; cache := _ |}).
  set (entry := {| timestamp := nowLimit (callClock first); count := 1 |}).
  cbv beta iota.
  pose proof (handleAll_in_window others s1 entry) as Hrest.
  destruct (handleAll s1 others) as [rs s2]. simpl in Hrest |- *.
  rewrite Hrest.
  - change (Z.to_nat (RATE_LIMIT - 1)) with 9%nat.
    do 10 (destruct others as [|? others]; [discriminate Hlen|]).
    destruct others; [|discriminate Hlen].
    do 10 (destruct analyses as [|? analyses]; [discriminate Hothers|]).
    simpl in Hothers. injection Hothers as E1 E2 E3 E4 E5 E6 E7 E8 E9 _ _.
    simpl. now rewrite E1, E2, E3, E4, E5, E6, E7, E8, E9.
  - apply lookup_insert_eq.
  - exact Hdup'.
  - rewrite Forall_forall in Hcache' |- *. intros c Hin. simpl.
    rewrite lookup_insert_ne; [now apply Hcache'|].
    intros Heq. apply Hnotin. fold (callHash first) in Heq. rewrite Heq.
    apply list_elem_of_fmap. now exists c.
  - exact Hwin.
Qed.
End CoordinatorFacts.

(** ** Sanity of the embedding on concrete inputs *)

Example simulateAIAnalysis_hello :
  helloAnalysis =
    {| summary := str "Notion document page with 2 words. Primarily informational content.";
       sentiment := str "neutral";
       keyInsights := [str "Optimized for notion platform integration"];
       confidence := simulatedConfidence 0 0;
       actionableItems := [str "Set up automated monitoring for content changes"];
       categories := [str "SAAS Application"] |}.
Proof. vm_compute. reflexivity. Qed.

Example simulatedConfidence_floor :
  (simulatedConfidence 1 1 == 0.3)%Q.
Proof. vm_compute. reflexivity. Qed.

Example simulatedConfidence_middle :
  (simulatedConfidence 3 2 == 0.5)%Q.
Proof. vm_compute. reflexivity. Qed.

Example simulatedConfidence_ceiling :
  (simulatedConfidence 12 7 == 0.9)%Q.
Proof. vm_compute. reflexivity. Qed.

Example matchCount_resumes_after_match :
  matchCount (codes "goodgood good goo") (codes "good") = 3%nat /\
  matchCount (codes "aaaa") (codes "aa") = 2%nat.
Proof. split; reflexivity. Qed.

Example splitLength_examples :
  splitLength (codes "hello world") = 2%nat /\
  splitLength (codes "") = 1%nat /\
  splitLength (codes " a  b ") = 4%nat.
Proof. repeat split; reflexivity. Qed.

Example simulated_sentiment_positive :
  sentiment (simulateAIAnalysis asciiLower asciiUpper
               (pageOf "Great growth, one Problem")) = str "positive".
Proof. vm_compute. reflexivity. Qed.

Example checkRateLimit_boundary :
  (checkRateLimit (rateLimiter saturatedService) 60000).1 = false /\
  (checkRateLimit (rateLimiter saturatedService) 60001).1 = true.
Proof. split; vm_compute; reflexivity. Qed.

(** ** The shape of the analyses *)

Lemma simulatedConfidence_clamped positiveCount negativeCount :
  (0.3 <= simulatedConfidence positiveCount negativeCount)%Q /\
  (simulatedConfidence positiveCount negativeCount <= 0.9)%Q.
Proof.
  unfold simulatedConfidence. split.
  - apply Q.min_glb.
    + unfold Qle. simpl. lia.
    + apply Q.le_max_l.
  - apply Q.le_min_l.
Qed.

Lemma simulatedSentiment_known positiveCount negativeCount :
  In (JString (simulatedSentiment positiveCount negativeCount)) sentiments.
Proof.
  unfold simulatedSentiment, sentiments, str.
  destruct (negativeCount <? positiveCount)%nat; [simpl; tauto|].
  destruct (positiveCount <? negativeCount)%nat; simpl; tauto.
Qed.

Lemma confidenceWithin_widens lo hi lo' hi' r :
  (lo' <= lo)%Q -> (hi <= hi')%Q ->
  confidenceWithin lo hi r -> confidenceWithin lo' hi' r.
Proof.
  intros Hlo Hhi [H1 H2]. split.
  - now apply Qle_trans with lo.
  - now apply Qle_trans with hi.
Qed.

Section SimulationFacts.
Variables toLowerCase toUpperCase : jsstring -> jsstring.

Lemma simulateAIAnalysis_shape d :
  simulatedShape (simulateAIAnalysis toLowerCase toUpperCase d).
Proof.
  split.
  - apply simulatedConfidence_clamped.
  - apply simulatedSentiment_known.
Qed.

(** Every analysis cached by the simulated service came from the simulation. *)
Lemma simulated_cache s :
  simulated toLowerCase toUpperCase s ->
  forall contentHash cached,
    cache s !! contentHash = Some cached -> simulatedShape (data cached).
Proof.
  induction 1 as [|s d clk Hs IH]; intros contentHash cached.
  - simpl. now rewrite lookup_empty.
  - unfold simulatedCall.
    destruct (hit_or_miss s d clk) as [(c & Hc & Hlive)|Hmiss].
    + rewrite (handle_hit _ _ _ _ _ Hc Hlive). apply IH.
    + destruct (checkRateLimit (rateLimiter s) (nowLimit clk)) as [[|] rl] eqn:E.
      * rewrite (handle_miss_allowed _ _ _ _ _ Hmiss E). simpl.
        rewrite lookup_insert. case_decide.
        -- intros [= <-]. apply simulateAIAnalysis_shape.
        -- apply IH.
      * rewrite (handle_miss_rejected _ _ _ _ _ Hmiss E). apply IH.
Qed.

Lemma simulatedCall_shape s d clk r :
  simulated toLowerCase toUpperCase s ->
  (simulatedCall toLowerCase toUpperCase s d clk).1 = Returned r ->
  simulatedShape r.
Proof.
  intros Hs. unfold simulatedCall.
  destruct (hit_or_miss s d clk) as [(c & Hc & Hlive)|Hmiss].
  - rewrite (handle_hit _ _ _ _ _ Hc Hlive). intros [= <-].
    eapply simulated_cache; eassumption.
  - destruct (checkRateLimit (rateLimiter s) (nowLimit clk)) as [[|] rl] eqn:E.
    + rewrite (handle_miss_allowed _ _ _ _ _ Hmiss E). simpl.
      intros [= <-]. apply simulateAIAnalysis_shape.
    + rewrite (handle_miss_rejected _ _ _ _ _ Hmiss E). discriminate.
Qed.
End SimulationFacts.

(** The record decoded from a parsed reply is as the reply is: its numeric
    confidence and its truthy sentiment are taken over unchecked. *)
Lemma parseAIResponse_shape parsed :
  wellShaped (parseAIResponse (Parsed parsed)) <->
  (forall q, getProperty parsed (codes "confidence") = Some (JNumber q) ->
             (0 <= q)%Q /\ (q <= 1)%Q) /\
  (forall v, getProperty parsed (codes "sentiment") = Some v ->
             truthy v = true -> In v sentiments).
Proof.
  unfold wellShaped, confidenceWithin. cbn [parseAIResponse confidence sentiment].
  split.
  - intros [Hconf Hsent]. split.
    + intros q Hq. rewrite Hq in Hconf. exact Hconf.
    + intros v Hv Ht. rewrite Hv in Hsent. simpl in Hsent.
      now rewrite Ht in Hsent.
  - intros [Hconf Hsent]. split.
    + destruct (getProperty parsed (codes "confidence")) as [[| | q | | |]|];
        try (simpl; split; unfold Qle; simpl; lia).
      now apply Hconf.
    + destruct (getProperty parsed (codes "sentiment")) as [v|];
        [|simpl; tauto].
      simpl. destruct (truthy v) eqn:Ht; [now apply Hsent | simpl; tauto].
Qed.

(** C9, as the code has it: every analysis returned by
    [handleContentAnalysis] of the service whose analysis is the keyword
    simulation, fresh or from the cache, has its confidence in [0.3, 0.9],
    so in [0, 1], and its sentiment among 'positive', 'negative' and
    'neutral'.  [parseAIResponse] gives confidence 0.3 and 'neutral' when
    it falls back, and a record decoded from a parsed reply has that shape
    exactly when the numeric confidence of the reply is in [0, 1] and its
    truthy sentiment is one of the three. *)
Theorem simulated_analysis_is_well_shaped
    (toLowerCase toUpperCase : jsstring -> jsstring) s d clk r parsed :
  simulated toLowerCase toUpperCase s ->
  (simulatedCall toLowerCase toUpperCase s d clk).1 = Returned r ->
  (confidenceWithin 0.3 0.9 r /\ wellShaped r) /\
  wellShaped (parseAIResponse NoObject) /\
  (wellShaped (parseAIResponse (Parsed parsed)) <->
   (forall q, getProperty parsed (codes "confidence") = Some (JNumber q) ->
              (0 <= q)%Q /\ (q <= 1)%Q) /\
   (forall v, getProperty parsed (codes "sentiment") = Some v ->
              truthy v = true -> In v sentiments)).
Proof.
  intros Hs Hr.
  destruct (simulatedCall_shape _ _ _ _ _ _ Hs Hr) as [Hconf Hsent].
  split; [|split].
  - split; [exact Hconf|]. split; [|exact Hsent].
    eapply confidenceWithin_widens; [| |exact Hconf]; unfold Qle; simpl; lia.
  - split; [split; unfold Qle; simpl; lia | simpl; tauto].
  - apply parseAIResponse_shape.
Qed.

(** C9 as stated fails: with the analysis left to a vendor, a
    fresh service returns the record decoded from [oddReply], whose
    confidence is 5 and whose sentiment is 'mixed'. *)
Lemma vendor_analysis_is_unchecked :
  (vendorCall newAIService (pageOf "hello world") (clockAt 0) oddReply).1 =
    Returned (parseAIResponse oddReply) /\
  (confidence (parseAIResponse oddReply) == 5)%Q /\
  sentiment (parseAIResponse oddReply) = str "mixed" /\
  ~ wellShaped (parseAIResponse oddReply).
Proof.
  split; [vm_compute; reflexivity|].
  split; [vm_compute; reflexivity|].
  split; [vm_compute; reflexivity|].
  intros [[_ Hle] _]. vm_compute in Hle. now apply Hle.
Qed.

(** ** The theorems at concrete inputs *)

Lemma cache_hit_spares_limiter_witness :
  cache warmService !! generateContentHash (mainContent (pageOf "hello world")) =
    Some helloCached /\
  nowLookup (clockAt 1000) - cachedAt helloCached < CACHE_DURATION /\
  forall rl,
    handleContentAnalysis {| rateLimiter := rl; cache := cache warmService |}
      (pageOf "hello world") (clockAt 1000) (Thrown rateLimitMessage) =
    (Returned helloAnalysis, {| rateLimiter := rl; cache := cache warmService |}).
Proof.
  assert (cache warmService !!
            generateContentHash (mainContent (pageOf "hello world")) =
          Some helloCached) as H1 by (vm_compute; reflexivity).
  assert (nowLookup (clockAt 1000) - cachedAt helloCached < CACHE_DURATION)
    as H2 by (vm_compute; reflexivity).
  split; [exact H1|]. split; [exact H2|].
  exact (cache_hit_spares_limiter warmService (pageOf "hello world")
           (clockAt 1000) (Thrown rateLimitMessage) helloCached H1 H2).
Defined.

Lemma eleventh_call_is_rejected_witness :
  rateLimiter (newAIService (A := ContentAnalysis)) = ∅ /\
  length (tail elevenCalls) = 10%nat /\
  NoDup (map callHash elevenCalls) /\
  Forall (fun c => cache (newAIService (A := ContentAnalysis)) !! callHash c = None)
    elevenCalls /\
  Forall (fun c => nowLimit (callClock c) -
                   nowLimit (callClock (simulatedCallOf "page 0" 0)) <= 60000)
    (tail elevenCalls) /\
  map callBackend elevenCalls = map Returned elevenAnalyses /\
  (handleAll newAIService elevenCalls).1 =
    map Returned (take 10 elevenAnalyses) ++ [Thrown rateLimitMessage].
Proof.
  assert (NoDup (map callHash elevenCalls)) as Hdup.
  { apply (bool_decide_unpack (NoDup (map callHash elevenCalls))).
    vm_compute. exact I. }
  assert (Forall (fun c => cache (newAIService (A := ContentAnalysis)) !!
                             callHash c = None) elevenCalls) as Hcache.
  { apply Forall_forall. intros c _. apply lookup_empty. }
  assert (Forall (fun c => nowLimit (callClock c) -
                           nowLimit (callClock (simulatedCallOf "page 0" 0))
                           <= 60000) (tail elevenCalls)) as Hwin.
  { repeat (constructor; [vm_compute; discriminate|]). constructor. }
  repeat (split; [first [reflexivity | assumption]|]).
  exact (eleventh_call_is_rejected newAIService (simulatedCallOf "page 0" 0)
           (tail elevenCalls) elevenAnalyses eq_refl eq_refl Hdup Hcache Hwin
           eq_refl).
Defined.

Lemma count_stays_within_limit_witness :
  reachable warmService /\
  withinLimit (rateLimiter warmService) /\
  forall d clk backend,
    withinLimit (rateLimiter (handleContentAnalysis warmService d clk backend).2).
Proof.
  assert (reachable warmService) as H
    by (apply reachable_handle, reachable_new).
  split; [exact H|]. exact (count_stays_within_limit warmService H).
Defined.

Lemma stale_window_restarts_witness :
  cacheMiss saturatedService (pageOf "hello world") (clockAt 60001) /\
  rateLimiter saturatedService !! userKey = Some fullWindow /\
  nowLimit (clockAt 60001) - timestamp fullWindow > 60000 /\
  (handleContentAnalysis saturatedService (pageOf "hello world") (clockAt 60001)
     (Returned helloAnalysis)).1 = Returned helloAnalysis /\
  rateLimiter
    (handleContentAnalysis saturatedService (pageOf "hello world")
       (clockAt 60001) (Returned helloAnalysis)).2 !! userKey =
    Some {| timestamp := 60001; count := 1 |}.
Proof.
  assert (cacheMiss saturatedService (pageOf "hello world") (clockAt 60001))
    as H1 by (vm_compute; exact I).
  assert (rateLimiter saturatedService !! userKey = Some fullWindow)
    as H2 by (vm_compute; reflexivity).
  assert (nowLimit (clockAt 60001) - timestamp fullWindow > 60000)
    as H3 by (vm_compute; reflexivity).
  split; [exact H1|]. split; [exact H2|]. split; [exact H3|].
  exact (proj2 (stale_window_restarts saturatedService (pageOf "hello world")
                  (clockAt 60001) (Returned helloAnalysis) fullWindow H1 H2 H3)).
Defined.

Lemma cache_miss_stores_result_witness :
  cacheMiss warmService (pageOf "second page") (clockAt 2000) /\
  (checkRateLimit (rateLimiter warmService) (nowLimit (clockAt 2000))).1 = true /\
  (handleContentAnalysis warmService (pageOf "second page") (clockAt 2000)
     (Returned helloAnalysis)).1 = Returned helloAnalysis /\
  cache (handleContentAnalysis warmService (pageOf "second page") (clockAt 2000)
           (Returned helloAnalysis)).2 !!
    generateContentHash (mainContent (pageOf "second page")) =
    Some {| data := helloAnalysis; cachedAt := 3500 |}.
Proof.
  assert (cacheMiss warmService (pageOf "second page") (clockAt 2000))
    as H1 by (vm_compute; exact I).
  assert ((checkRateLimit (rateLimiter warmService)
             (nowLimit (clockAt 2000))).1 = true)
    as H2 by (vm_compute; reflexivity).
  split; [exact H1|]. split; [exact H2|].
  destruct (cache_miss_stores_result warmService (pageOf "second page")
              (clockAt 2000) helloAnalysis H1 H2) as [E Hstored].
  split; [now rewrite E | exact Hstored].
Defined.

Lemma rejection_keeps_state_witness :
  cacheMiss saturatedService (pageOf "hello world") (clockAt 60000) /\
  rateLimiter saturatedService !! userKey = Some fullWindow /\
  ~ (timestamp fullWindow < nowLimit (clockAt 60000) - 60000) /\
  count fullWindow >= RATE_LIMIT /\
  (handleContentAnalysis saturatedService (pageOf "hello world") (clockAt 60000)
     (Returned helloAnalysis)).1 = Thrown rateLimitMessage /\
  cache (handleContentAnalysis saturatedService (pageOf "hello world")
           (clockAt 60000) (Returned helloAnalysis)).2 = cache saturatedService /\
  rateLimiter (handleContentAnalysis saturatedService (pageOf "hello world")
                 (clockAt 60000) (Returned helloAnalysis)).2 !! userKey =
    Some fullWindow.
Proof.
  assert (cacheMiss saturatedService (pageOf "hello world") (clockAt 60000))
    as H1 by (vm_compute; exact I).
  assert (rateLimiter saturatedService !! userKey = Some fullWindow)
    as H2 by (vm_compute; reflexivity).
  assert (~ (timestamp fullWindow < nowLimit (clockAt 60000) - 60000))
    as H3 by (vm_compute; discriminate).
  assert (count fullWindow >= RATE_LIMIT) as H4 by (vm_compute; discriminate).
  split; [exact H1|]. split; [exact H2|]. split; [exact H3|]. split; [exact H4|].
  exact (proj2 (rejection_keeps_state saturatedService (pageOf "hello world")
                  (clockAt 60000) (Returned helloAnalysis) fullWindow
                  H1 H2 H3 H4)).
Defined.

Lemma backend_failure_keeps_admission_witness :
  cacheMiss warmService (pageOf "second page") (clockAt 2000) /\
  (checkRateLimit (rateLimiter warmService) (nowLimit (clockAt 2000))).1 = true /\
  (handleContentAnalysis warmService (pageOf "second page") (clockAt 2000)
     (Thrown (codes "Backend error: 500"))).1 = Thrown (codes "Backend error: 500") /\
  cache (handleContentAnalysis warmService (pageOf "second page") (clockAt 2000)
           (Thrown (codes "Backend error: 500"))).2 = cache warmService /\
  rateLimiter (handleContentAnalysis warmService (pageOf "second page")
                 (clockAt 2000) (Thrown (codes "Backend error: 500"))).2 !! userKey =
    Some {| timestamp := 0; count := 2 |}.
Proof.
  assert (cacheMiss warmService (pageOf "second page") (clockAt 2000))
    as H1 by (vm_compute; exact I).
  assert ((checkRateLimit (rateLimiter warmService)
             (nowLimit (clockAt 2000))).1 = true)
    as H2 by (vm_compute; reflexivity).
  split; [exact H1|]. split; [exact H2|].
  exact (backend_failure_keeps_admission warmService (pageOf "second page")
           (clockAt 2000) (codes "Backend error: 500") H1 H2).
Defined.

Lemma collision_is_cache_hit_witness :
  pageOf "Aa" <> pageOf "BB" /\
  generateContentHash (mainContent (pageOf "Aa")) =
    generateContentHash (mainContent (pageOf "BB")) /\
  cacheMiss (newAIService (A := ContentAnalysis)) (pageOf "Aa") (clockAt 0) /\
  (simulatedCall asciiLower asciiUpper newAIService (pageOf "Aa") (clockAt 0)).1 =
    Returned (simulateAIAnalysis asciiLower asciiUpper (pageOf "Aa")) /\
  nowLookup (clockAt 10000) - nowStore (clockAt 0) < CACHE_DURATION /\
  handleContentAnalysis
    (simulatedCall asciiLower asciiUpper newAIService (pageOf "Aa") (clockAt 0)).2
    (pageOf "BB") (clockAt 10000)
    (Returned (simulateAIAnalysis asciiLower asciiUpper (pageOf "BB"))) =
  (Returned (simulateAIAnalysis asciiLower asciiUpper (pageOf "Aa")),
   (simulatedCall asciiLower asciiUpper newAIService (pageOf "Aa") (clockAt 0)).2).
Proof.
  assert (generateContentHash (mainContent (pageOf "Aa")) =
          generateContentHash (mainContent (pageOf "BB")))
    as H1 by (vm_compute; reflexivity).
  assert (cacheMiss (newAIService (A := ContentAnalysis)) (pageOf "Aa") (clockAt 0))
    as H2 by (vm_compute; exact I).
  assert ((simulatedCall asciiLower asciiUpper newAIService (pageOf "Aa")
             (clockAt 0)).1 =
          Returned (simulateAIAnalysis asciiLower asciiUpper (pageOf "Aa")))
    as H3 by (vm_compute; reflexivity).
  assert (nowLookup (clockAt 10000) - nowStore (clockAt 0) < CACHE_DURATION)
    as H4 by (vm_compute; reflexivity).
  split; [vm_compute; discriminate|].
  split; [exact H1|]. split; [exact H2|]. split; [exact H3|]. split; [exact H4|].
  exact (collision_is_cache_hit newAIService (pageOf "Aa") (pageOf "BB")
           (clockAt 0) (clockAt 10000)
           (Returned (simulateAIAnalysis asciiLower asciiUpper (pageOf "Aa")))
           (Returned (simulateAIAnalysis asciiLower asciiUpper (pageOf "BB")))
           (simulateAIAnalysis asciiLower asciiUpper (pageOf "Aa"))
           H1 H2 H3 H4).
Defined.

Lemma simulated_analysis_is_well_shaped_witness :
  simulated asciiLower asciiUpper warmService /\
  (simulatedCall asciiLower asciiUpper warmService (pageOf "hello world")
     (clockAt 1000)).1 = Returned helloAnalysis /\
  confidenceWithin 0.3 0.9 helloAnalysis /\
  wellShaped helloAnalysis.
Proof.
  assert (simulated asciiLower asciiUpper warmService) as H1
    by (apply simulated_call, simulated_new).
  assert ((simulatedCall asciiLower asciiUpper warmService (pageOf "hello world")
             (clockAt 1000)).1 = Returned helloAnalysis)
    as H2 by (vm_compute; reflexivity).
  split; [exact H1|]. split; [exact H2|].
  exact (proj1 (simulated_analysis_is_well_shaped asciiLower asciiUpper
                  warmService (pageOf "hello world") (clockAt 1000)
                  helloAnalysis [] H1 H2)).
Defined.

(** * Further properties of the coordinator *)

Lemma checkRateLimit_cases rl now :
  (activeEntry rl now = None /\
   checkRateLimit rl now =
     (true, <[userKey := {| timestamp := now; count := 1 |}]>
              (cleanOldEntries (now - 60000) rl))) \/
  (exists entry,
     activeEntry rl now = Some entry /\ count entry < RATE_LIMIT /\
     checkRateLimit rl now =
       (true, <[userKey := {| timestamp := timestamp entry;
                              count := count entry + 1 |}]>
                (cleanOldEntries (now - 60000) rl))) \/
  (exists entry,
     activeEntry rl now = Some entry /\ count entry >= RATE_LIMIT /\
     checkRateLimit rl now = (false, cleanOldEntries (now - 60000) rl)).
Proof.
  destruct (activeEntry rl now) as [entry|] eqn:E.
  - destruct (Z_lt_ge_dec (count entry) RATE_LIMIT) as [Hlt|Hge].
    + right. left. exists entry. repeat split; trivial.
      exact (checkRateLimit_under _ _ _ E Hlt).
    + right. right. exists entry. repeat split; trivial.
      exact (checkRateLimit_saturated _ _ _ E Hge).
  - left. split; [reflexivity|]. exact (checkRateLimit_fresh _ _ E).
Qed.

Lemma activeEntry_Some rl now entry :
  activeEntry rl now = Some entry <->
  rl !! userKey = Some entry /\ ~ (timestamp entry < now - 60000).
Proof.
  unfold activeEntry, cleanOldEntries. rewrite map_lookup_filter_Some.
  reflexivity.
Qed.

(** X4: whatever the limiter held, after a check no entry older than
    the window is left in it. *)
Theorem checkRateLimit_leaves_no_stale_entry rl now key entry :
  (checkRateLimit rl now).2 !! key = Some entry ->
  now - timestamp entry <= 60000.
Proof.
  assert (forall k e, cleanOldEntries (now - 60000) rl !! k = Some e ->
                      now - timestamp e <= 60000) as Hclean.
  { intros k e H. unfold cleanOldEntries in H.
    apply map_lookup_filter_Some in H as [_ H]. simpl in H. lia. }
  destruct (checkRateLimit_cases rl now)
    as [[_ ->]|[(e & Hact & _ & ->)|(e & _ & _ & ->)]]; simpl.
  - rewrite lookup_insert. case_decide.
    + intros [= <-]. simpl. lia.
    + apply Hclean.
  - rewrite lookup_insert. case_decide.
    + intros [= <-]. simpl. now apply (Hclean userKey).
    + apply Hclean.
  - apply Hclean.
Qed.

Lemma checkRateLimit_leaves_no_stale_entry_witness :
  (checkRateLimit (rateLimiter saturatedService) 60001).2 !! userKey =
    Some {| timestamp := 60001; count := 1 |} /\
  60001 - timestamp {| timestamp := 60001; count := 1 |} <= 60000.
Proof.
  assert ((checkRateLimit (rateLimiter saturatedService) 60001).2 !! userKey =
            Some {| timestamp := 60001; count := 1 |}) as H
    by (vm_compute; reflexivity).
  split; [exact H|].
  exact (checkRateLimit_leaves_no_stale_entry _ _ _ _ H).
Defined.

(** X5: a check refuses exactly when the caller's entry is inside the
    window and its count has reached [RATE_LIMIT]. *)
Theorem checkRateLimit_refuses_iff rl now :
  (checkRateLimit rl now).1 = false <->
  exists entry,
    rl !! userKey = Some entry /\
    now - timestamp entry <= 60000 /\
    count entry >= RATE_LIMIT.
Proof.
  split.
  - destruct (checkRateLimit_cases rl now)
      as [[_ ->]|[(e & _ & _ & ->)|(e & Hact & Hge & ->)]]; simpl;
      try discriminate.
    intros _. apply activeEntry_Some in Hact as [Hin Hfresh].
    exists e. repeat split; trivial. lia.
  - intros (e & Hin & Hfresh & Hge).
    assert (activeEntry rl now = Some e) as Hact
      by (apply activeEntry_Some; split; [exact Hin | lia]).
    now rewrite (checkRateLimit_saturated _ _ _ Hact Hge).
Qed.

Lemma singleTenant_checkRateLimit rl now :
  singleTenant rl -> singleTenant (checkRateLimit rl now).2.
Proof.
  intros Hrl.
  assert (singleTenant (cleanOldEntries (now - 60000) rl)) as Hclean.
  { intros k e H. apply (Hrl k). eapply cleanOldEntries_inside, H. }
  destruct (checkRateLimit_cases rl now)
    as [[_ ->]|[(e & Hact & _ & ->)|(e & _ & _ & ->)]]; simpl; trivial.
  - intros k e'. rewrite lookup_insert. case_decide.
    + intros [= <-]. simpl. split; [congruence | lia].
    + apply Hclean.
  - intros k e'. rewrite lookup_insert. case_decide.
    + intros [= <-]. simpl. split; [congruence|].
      destruct (Hclean userKey e Hact). lia.
    + apply Hclean.
Qed.

(** The admissions of a run of checks made within 60000 ms of [lo] never
    exceed the budget of the limiter. *)
Lemma admissions_within_budget lo times :
  forall rl,
    Forall (fun now => lo <= now <= lo + 60000) times ->
    Z.of_nat (admissions rl times) <= budget lo rl.
Proof.
  induction times as [|now times IH]; intros rl Hspan.
  - simpl. unfold budget, RATE_LIMIT.
    destruct (rl !! userKey) as [e|]; [destruct (lo <=? timestamp e)|]; lia.
  - apply Forall_cons in Hspan as [Hnow Hspan]. cbn [admissions].
    destruct (checkRateLimit_cases rl now)
      as [[Hact E]|[(e & Hact & Hlt & E)|(e & Hact & Hge & E)]]; rewrite E.
    + specialize (IH (<[userKey := {| timestamp := now; count := 1 |}]>
                        (cleanOldEntries (now - 60000) rl)) Hspan).
      unfold budget in IH at 1. rewrite lookup_insert_eq in IH. simpl in IH.
      destruct (Z.leb_spec lo now); [|lia].
      assert (RATE_LIMIT <= budget lo rl); [|unfold RATE_LIMIT in *; lia].
      unfold budget. destruct (rl !! userKey) as [e|] eqn:Hin; [|lia].
      destruct (Z.leb_spec lo (timestamp e)); [|lia].
      exfalso. unfold activeEntry in Hact.
      rewrite (cleanOldEntries_keeps _ _ _ _ Hin) in Hact; [discriminate | lia].
    + specialize (IH (<[userKey := {| timestamp := timestamp e;
                                     count := count e + 1 |}]>
                        (cleanOldEntries (now - 60000) rl)) Hspan).
      unfold budget in IH at 1. rewrite lookup_insert_eq in IH. simpl in IH.
      apply activeEntry_Some in Hact as [Hin _].
      unfold budget. rewrite Hin.
      destruct (lo <=? timestamp e); unfold RATE_LIMIT in *; lia.
    + specialize (IH (cleanOldEntries (now - 60000) rl) Hspan).
      unfold budget in IH at 1. unfold activeEntry in Hact.
      rewrite Hact in IH.
      apply activeEntry_Some in Hact as [Hin _].
      unfold budget. rewrite Hin. lia.
Qed.

(** X6: a fixed window lets a burst through at its turn, but a
    bounded one: whatever the service did before, of the checks made
    within any span of 60000 ms fewer than twice [RATE_LIMIT] are
    admitted. *)
Theorem no_more_than_nineteen_a_minute rl lo times :
  singleTenant rl ->
  Forall (fun now => lo <= now <= lo + 60000) times ->
  (admissions rl times < 2 * Z.to_nat RATE_LIMIT)%nat.
Proof.
  intros Hrl Hspan.
  pose proof (admissions_within_budget lo times rl Hspan) as H.
  assert (budget lo rl <= 19); [|unfold RATE_LIMIT; lia].
  unfold budget. destruct (rl !! userKey) as [e|] eqn:Hin.
  - destruct (Hrl _ _ Hin) as [_ Hone].
    destruct (lo <=? timestamp e); unfold RATE_LIMIT; lia.
  - unfold RATE_LIMIT. lia.
Qed.

(** The bound is reached: nine calls that use up a window as it runs out
    and ten that open the next one, 1 ms later; the five after them are
    refused. *)
Example nineteen_in_two_milliseconds : admissions lateWindow burstTimes = 19%nat.
Proof. vm_compute. reflexivity. Qed.

Lemma no_more_than_nineteen_a_minute_witness :
  singleTenant lateWindow /\
  Forall (fun now => 60000 <= now <= 60000 + 60000) burstTimes /\
  (admissions lateWindow burstTimes < 2 * Z.to_nat RATE_LIMIT)%nat.
Proof.
  assert (singleTenant lateWindow) as H1.
  { intros key entry H. unfold lateWindow in H.
    apply lookup_singleton_Some in H as [<- <-].
    split; [reflexivity | simpl; lia]. }
  assert (Forall (fun now => 60000 <= now <= 60000 + 60000) burstTimes) as H2.
  { unfold burstTimes. simpl. repeat (constructor; [lia|]). constructor. }
  split; [exact H1|]. split; [exact H2|].
  exact (no_more_than_nineteen_a_minute lateWindow 60000 burstTimes H1 H2).
Defined.

Section CoordinatorMore.
Context {A : Type}.
Implicit Types (s : AIService A) (d : ExtractedData) (clk : Clock).
Implicit Types (backend : Completion A).

(** The three ways a call can go. *)
Lemma handle_cases s d clk backend :
  (exists cached,
     cache s !! generateContentHash (mainContent d) = Some cached /\
     nowLookup clk - cachedAt cached < CACHE_DURATION /\
     handleContentAnalysis s d clk backend = (Returned (data cached), s)) \/
  (exists rl,
     cacheMiss s d clk /\
     checkRateLimit (rateLimiter s) (nowLimit clk) = (false, rl) /\
     handleContentAnalysis s d clk backend =
       (Thrown rateLimitMessage, {| rateLimiter := rl; cache := cache s |})) \/
  (exists rl,
     cacheMiss s d clk /\
     checkRateLimit (rateLimiter s) (nowLimit clk) = (true, rl) /\
     handleContentAnalysis s d clk backend =
       afterAwait {| rateLimiter := rl; cache := cache s |}
         (generateContentHash (mainContent d)) backend (nowStore clk)).
Proof.
  destruct (hit_or_miss s d clk) as [(cached & Hc & Hlive)|Hmiss].
  - left. exists cached. repeat split; trivial. now apply handle_hit.
  - destruct (checkRateLimit (rateLimiter s) (nowLimit clk)) as [[|] rl] eqn:E.
    + right. right. exists rl. repeat split; trivial.
      now apply handle_miss_allowed.
    + right. left. exists rl. repeat split; trivial.
      now apply handle_miss_rejected.
Qed.


Lemma handle_other_hashes s d clk backend contentHash :
  contentHash <> generateContentHash (mainContent d) ->
  cache (handleContentAnalysis s d clk backend).2 !! contentHash =
    cache s !! contentHash.
Proof.
  intros Hne.
  destruct (handle_cases s d clk backend)
    as [(c & _ & _ & ->)|[(rl & _ & _ & ->)|(rl & _ & _ & ->)]];
    try reflexivity.
  destruct backend; simpl; [|reflexivity].
  now rewrite lookup_insert_ne.
Qed.

(** X1: calls write the cache only at their own content hashes: the
    entry of any other hash is after a run of calls what it was before. *)
Theorem calls_touch_only_their_hashes (calls : list (Call A)) s contentHash :
  ~ In contentHash (map callHash calls) ->
  cache (handleAll s calls).2 !! contentHash = cache s !! contentHash.
Proof.
  revert s. induction calls as [|c calls IH]; intros s Hnotin; [reflexivity|].
  cbn [handleAll].
  pose proof (handle_other_hashes s (callData c) (callClock c) (callBackend c)
                contentHash) as Hone.
  destruct (handleContentAnalysis s (callData c) (callClock c) (callBackend c))
    as [r s1].
  specialize (IH s1).
  destruct (handleAll s1 calls) as [rs s2]. simpl in *.
  rewrite IH by tauto. apply Hone. intros ->. apply Hnotin. now left.
Qed.

Lemma handle_keeps_keys s d clk backend contentHash :
  is_Some (cache s !! contentHash) ->
  is_Some (cache (handleContentAnalysis s d clk backend).2 !! contentHash).
Proof.
  intros Hin.
  destruct (handle_cases s d clk backend)
    as [(c & _ & _ & ->)|[(rl & _ & _ & ->)|(rl & _ & _ & ->)]]; trivial.
  destruct backend; simpl; trivial.
  rewrite lookup_insert. now case_decide.
Qed.

(** X8: the cache has no eviction: a content hash that has an entry
    keeps one through any run of calls, hits, misses and failures alike. *)
Theorem cache_never_forgets (calls : list (Call A)) s contentHash :
  is_Some (cache s !! contentHash) ->
  is_Some (cache (handleAll s calls).2 !! contentHash).
Proof.
  revert s. induction calls as [|c calls IH]; intros s Hin; [exact Hin|].
  cbn [handleAll].
  pose proof (handle_keeps_keys s (callData c) (callClock c) (callBackend c)
                contentHash Hin) as Hone.
  destruct (handleContentAnalysis s (callData c) (callClock c) (callBackend c))
    as [r s1].
  specialize (IH s1 Hone).
  now destruct (handleAll s1 calls) as [rs s2].
Qed.

(** X3: the limiter of the service is single-tenant: in every
    reachable state it holds no key but [userKey], and a count of at
    least 1. *)
Theorem limiter_is_single_tenant s :
  reachable s -> singleTenant (rateLimiter s).
Proof.
  induction 1 as [|s d clk Hs IH|s contentHash backend now Hs IH].
  - intros key entry H. simpl in H. now rewrite lookup_empty in H.
  - destruct (hit_or_miss s d clk) as [(cached & Hc & Hlive)|Hmiss].
    + now rewrite (beforeAwait_hit _ _ _ _ Hc Hlive).
    + rewrite (beforeAwait_miss _ _ _ Hmiss).
      pose proof (singleTenant_checkRateLimit _ (nowLimit clk) IH) as H.
      destruct (checkRateLimit (rateLimiter s) (nowLimit clk)) as [[|] rl];
        exact H.
  - now destruct backend.
Qed.

(** X7: text asked for again costs nothing: after a call that was
    admitted and stored its analysis, any number of calls with the same
    content hash made less than [CACHE_DURATION] after the store all return
    that analysis, and the service, its rate limiter included, stays as
    the first call left it. *)
Theorem repeated_text_is_served_from_cache s d clk analysis
    (calls : list (Call A)) :
  cacheMiss s d clk ->
  (checkRateLimit (rateLimiter s) (nowLimit clk)).1 = true ->
  Forall (fun c => callHash c = generateContentHash (mainContent d) /\
                   nowLookup (callClock c) - nowStore clk < CACHE_DURATION)
    calls ->
  let s' := (handleContentAnalysis s d clk (Returned analysis)).2 in
  handleAll s' calls = (map (fun _ => Returned analysis) calls, s').
Proof.
  intros Hmiss Hok Hcalls. cbv zeta.
  destruct (checkRateLimit (rateLimiter s) (nowLimit clk)) as [allowed rl] eqn:E.
  simpl in Hok. subst allowed.
  rewrite (handle_miss_allowed _ _ _ _ _ Hmiss E). simpl.
  set (s1 := {| rateLimiter := rl; cache := _ |}).
  assert (cache s1 !! generateContentHash (mainContent d) =
          Some {| data := analysis; cachedAt := nowStore clk |}) as Hin
    by apply lookup_insert_eq.
  clearbody s1.
  induction Hcalls as [|c calls [Hhash Hsoon] _ IH]; [reflexivity|].
  cbn [handleAll]. unfold callHash in Hhash.
  rewrite (handle_hit s1 (callData c) (callClock c) (callBackend c)
             {| data := analysis; cachedAt := nowStore clk |});
    [|now rewrite Hhash|exact Hsoon].
  now rewrite IH.
Qed.
End CoordinatorMore.

Lemma calls_touch_only_their_hashes_witness :
  ~ In (generateContentHash (codes "hello world")) (map callHash elevenCalls) /\
  cache (handleAll warmService elevenCalls).2 !!
    generateContentHash (codes "hello world") = Some helloCached.
Proof.
  assert (~ In (generateContentHash (codes "hello world"))
            (map callHash elevenCalls)) as H.
  { vm_compute. intros Hin.
    repeat (destruct Hin as [Hin|Hin]; [discriminate Hin|]). exact Hin. }
  split; [exact H|].
  rewrite (calls_touch_only_their_hashes elevenCalls warmService _ H).
  vm_compute. reflexivity.
Defined.

Lemma cache_never_forgets_witness :
  is_Some (cache warmService !! generateContentHash (codes "hello world")) /\
  is_Some (cache (handleAll warmService elevenCalls).2 !!
             generateContentHash (codes "hello world")).
Proof.
  assert (is_Some (cache warmService !!
                     generateContentHash (codes "hello world"))) as H
    by (exists helloCached; vm_compute; reflexivity).
  split; [exact H|].
  exact (cache_never_forgets elevenCalls warmService _ H).
Defined.

Lemma limiter_is_single_tenant_witness :
  reachable warmService /\ singleTenant (rateLimiter warmService).
Proof.
  assert (reachable warmService) as H
    by (apply reachable_handle, reachable_new).
  split; [exact H|]. exact (limiter_is_single_tenant warmService H).
Defined.

Lemma repeated_text_is_served_from_cache_witness :
  cacheMiss (newAIService (A := ContentAnalysis)) (pageOf "hello world") (clockAt 0) /\
  (checkRateLimit (rateLimiter (newAIService (A := ContentAnalysis)))
     (nowLimit (clockAt 0))).1 = true /\
  Forall (fun c => callHash c = generateContentHash (mainContent (pageOf "hello world")) /\
                   nowLookup (callClock c) - nowStore (clockAt 0) < CACHE_DURATION)
    (repeat (simulatedCallOf "hello world" 2000) 10) /\
  handleAll warmService (repeat (simulatedCallOf "hello world" 2000) 10) =
    (repeat (Returned helloAnalysis) 10, warmService).
Proof.
  assert (cacheMiss (newAIService (A := ContentAnalysis)) (pageOf "hello world")
            (clockAt 0)) as H1 by (vm_compute; exact I).
  assert ((checkRateLimit (rateLimiter (newAIService (A := ContentAnalysis)))
             (nowLimit (clockAt 0))).1 = true) as H2 by (vm_compute; reflexivity).
  assert (Forall (fun c => callHash c =
                             generateContentHash (mainContent (pageOf "hello world")) /\
                           nowLookup (callClock c) - nowStore (clockAt 0)
                           < CACHE_DURATION)
            (repeat (simulatedCallOf "hello world" 2000) 10)) as H3.
  { simpl. repeat (constructor; [split; [reflexivity | vm_compute; reflexivity]|]).
    constructor. }
  split; [exact H1|]. split; [exact H2|]. split; [exact H3|].
  exact (repeated_text_is_served_from_cache newAIService (pageOf "hello world")
           (clockAt 0) helloAnalysis _ H1 H2 H3).
Defined.

(** * Further properties of the simulation *)

Lemma includes_false_countFrom word :
  forall s skip, includes s word = false -> countFrom word s skip = 0%nat.
Proof.
  induction s as [|c s IH]; intros skip Hinc; [reflexivity|].
  cbn [includes] in Hinc. apply orb_false_iff in Hinc as [Hpre Hrest].
  cbn [countFrom]. destruct skip as [|skip].
  - rewrite Hpre. now apply IH.
  - now apply IH.
Qed.

Lemma keywordCount_absent content keywords :
  Forall (fun word => includes content word = false) keywords ->
  keywordCount content keywords = 0%nat.
Proof.
  intros Hall. unfold keywordCount. generalize 0%nat as total.
  induction Hall as [|word keywords Hword _ IH]; intros total; [reflexivity|].
  simpl. unfold matchCount at 2.
  rewrite (includes_false_countFrom _ _ _ Hword), Nat.add_0_r. apply IH.
Qed.

Section SimulationMore.
Variables toLowerCase toUpperCase : jsstring -> jsstring.

(** X9: [extractKeyInsights] never returns an empty list: it gives
    between one and five insights, the stock one when no test fires. *)
Theorem extractKeyInsights_between_one_and_five d :
  (1 <= length (extractKeyInsights toLowerCase d) <= 5)%nat.
Proof.
  unfold extractKeyInsights. cbv zeta.
  destruct (includes _ _), (hasForms d), (hasInteractiveElements (metadata d)),
    (500 <? wordCount (metadata d)), (notUnknown (platform (metadata d)));
    simpl; lia.
Qed.

(** X10: [categorizeContent] gives between one and five categories;
    a page of a known platform is always a 'SAAS Application', and
    'General Content' is given only when it is the whole answer. *)
Theorem categorizeContent_shape d :
  let categories := categorizeContent toLowerCase d in
  (1 <= length categories <= 5)%nat /\
  (platform (metadata d) <> codes "unknown" ->
   In (codes "SAAS Application") categories) /\
  (In (codes "General Content") categories ->
   categories = [codes "General Content"]).
Proof.
  cbv zeta. unfold categorizeContent, notUnknown. cbv zeta.
  destruct (includes (toLowerCase (url d)) _ || includes _ _),
    (hasForms d), (includes _ (codes "analytics") || includes _ _),
    (includes _ (codes "settings") || includes _ _);
    (case_bool_decide as Hp; simpl;
     (split; [lia|split;
       [ intros Hne;
         first [contradiction | now (repeat ((left; reflexivity) || right))]
       | intros Hin;
         first [reflexivity
               | vm_compute in Hin;
                 repeat (destruct Hin as [Hin|Hin]; [discriminate Hin|]);
                 contradiction ] ]])).
Qed.

(** [generateActionableItems] gives between one and four items
    and always ends with the advice to monitor content changes. *)
Theorem generateActionableItems_ends_with_monitoring d :
  (1 <= length (generateActionableItems d) <= 4)%nat /\
  last (generateActionableItems d) =
    Some (codes "Set up automated monitoring for content changes").
Proof.
  unfold generateActionableItems.
  destruct (hasForms d), (1000 <? wordCount (metadata d)),
    (hasInteractiveElements (metadata d)); simpl; (split; [lia | reflexivity]).
Qed.

(** X11: a text in which, once lower-cased, none of the sixteen
    keywords occurs is analysed as 'neutral' with the lowest confidence,
    0.3. *)
Theorem text_without_keywords_is_neutral d :
  Forall (fun word => includes (toLowerCase (mainContent d)) word = false)
    (positiveKeywords ++ negativeKeywords) ->
  sentiment (simulateAIAnalysis toLowerCase toUpperCase d) = str "neutral" /\
  (confidence (simulateAIAnalysis toLowerCase toUpperCase d) == 0.3)%Q.
Proof.
  intros Hall. apply Forall_app in Hall as [Hpos Hneg].
  unfold simulateAIAnalysis. cbv zeta. cbn [sentiment confidence].
  rewrite (keywordCount_absent _ _ Hpos), (keywordCount_absent _ _ Hneg).
  split; reflexivity.
Qed.
End SimulationMore.

(** X12: the confidence of the simulation is a tenth of the number of
    keyword matches, held between 0.3 and 0.9: up to three matches give
    0.3, nine or more give 0.9. *)
Theorem simulatedConfidence_by_matches positiveCount negativeCount :
  let total := (positiveCount + negativeCount)%nat in
  ((total <= 3)%nat -> (simulatedConfidence positiveCount negativeCount == 0.3)%Q) /\
  ((3 <= total <= 9)%nat ->
   (simulatedConfidence positiveCount negativeCount ==
    inject_Z (Z.of_nat total) / 10)%Q) /\
  ((9 <= total)%nat -> (simulatedConfidence positiveCount negativeCount == 0.9)%Q).
Proof.
  cbv zeta. unfold simulatedConfidence.
  set (t := Z.of_nat (positiveCount + negativeCount)).
  assert (forall lo : Z, (lo # 10 <= inject_Z t / 10)%Q <-> lo <= t) as Hle.
  { intros lo. unfold Qle, Qdiv, Qmult, Qinv, inject_Z. simpl. lia. }
  assert (forall hi : Z, (inject_Z t / 10 <= hi # 10)%Q <-> t <= hi) as Hge.
  { intros hi. unfold Qle, Qdiv, Qmult, Qinv, inject_Z. simpl. lia. }
  repeat split.
  - intros Ht. rewrite Q.max_l by (apply (Hge 3); lia).
    apply Q.min_r. unfold Qle. simpl. lia.
  - intros Ht. rewrite Q.max_r by (apply (Hle 3); lia).
    apply Q.min_r. apply (Hge 9). lia.
  - intros Ht. rewrite Q.max_r by (apply (Hle 3); lia).
    apply Q.min_l. apply (Hle 9). lia.
Qed.

Lemma text_without_keywords_is_neutral_witness :
  Forall (fun word => includes (asciiLower (mainContent (pageOf "Hello World")))
                        word = false)
    (positiveKeywords ++ negativeKeywords) /\
  sentiment (simulateAIAnalysis asciiLower asciiUpper (pageOf "Hello World")) =
    str "neutral" /\
  (confidence (simulateAIAnalysis asciiLower asciiUpper (pageOf "Hello World"))
   == 0.3)%Q.
Proof.
  assert (Forall (fun word => includes (asciiLower (mainContent (pageOf "Hello World")))
                                word = false)
            (positiveKeywords ++ negativeKeywords)) as H.
  { unfold positiveKeywords, negativeKeywords. simpl.
    repeat (constructor; [vm_compute; reflexivity|]). constructor. }
  split; [exact H|].
  exact (text_without_keywords_is_neutral asciiLower asciiUpper _ H).
Defined.

(** * Properties of the decoder of replies *)

Lemma orElse_truthy v fallback :
  truthy fallback = true -> truthy (orElse v fallback) = true.
Proof.
  intros Hf. destruct v as [v|]; simpl; [|exact Hf].
  destruct (truthy v) eqn:Hv; [exact Hv | exact Hf].
Qed.

(** X14: whatever the reply, the summary and the sentiment of the
    record [parseAIResponse] returns are truthy: never missing, [null],
    [false], 0 or the empty string. *)
Theorem parseAIResponse_fills_summary_and_sentiment response :
  truthy (summary (parseAIResponse response)) = true /\
  truthy (sentiment (parseAIResponse response)) = true.
Proof.
  destruct response as [|parsed]; simpl.
  - split; reflexivity.
  - split; apply orElse_truthy; reflexivity.
Qed.

(** X13: a reply that has the six properties with the types of the
    interface, summary and sentiment truthy, is decoded to exactly these
    six values, whatever else the object holds and in whatever order. *)
Theorem parseAIResponse_keeps_well_typed_reply parsed r :
  getProperty parsed (codes "summary") = Some (summary r) ->
  getProperty parsed (codes "sentiment") = Some (sentiment r) ->
  getProperty parsed (codes "keyInsights") = Some (JArray (keyInsights r)) ->
  getProperty parsed (codes "confidence") = Some (JNumber (confidence r)) ->
  getProperty parsed (codes "actionableItems") = Some (JArray (actionableItems r)) ->
  getProperty parsed (codes "categories") = Some (JArray (categories r)) ->
  truthy (summary r) = true ->
  truthy (sentiment r) = true ->
  parseAIResponse (Parsed parsed) = r.
Proof.
  intros H1 H2 H3 H4 H5 H6 Ht1 Ht2. unfold parseAIResponse.
  rewrite H1, H2, H3, H4, H5, H6. simpl. rewrite Ht1, Ht2.
  now destruct r.
Qed.

Lemma parseAIResponse_keeps_well_typed_reply_witness :
  let parsed :=
    [(codes "model", str "any");
     (codes "categories", JArray (categories helloAnalysis));
     (codes "actionableItems", JArray (actionableItems helloAnalysis));
     (codes "confidence", JNumber (confidence helloAnalysis));
     (codes "keyInsights", JArray (keyInsights helloAnalysis));
     (codes "sentiment", sentiment helloAnalysis);
     (codes "summary", summary helloAnalysis)] in
  truthy (summary helloAnalysis) = true /\
  truthy (sentiment helloAnalysis) = true /\
  parseAIResponse (Parsed parsed) = helloAnalysis.
Proof.
  cbv zeta. split; [vm_compute; reflexivity|]. split; [vm_compute; reflexivity|].
  apply parseAIResponse_keeps_well_typed_reply; vm_compute; reflexivity.
Defined.

(** * Properties of the messages and of the popup *)

Lemma orString_nonempty s fallback : s <> [] -> orString s fallback = s.
Proof. intros H. unfold orString. now case_bool_decide. Qed.

Section MessagingFacts.
Variable typeError : jsstring -> jsstring.
Context {A : Type}.
Implicit Types (s : AIService A) (clk : Clock) (backend : Completion A).

(** X15: an 'ANALYZE_CONTENT' message is always answered and keeps
    the channel open; the service moves as [handleContentAnalysis] moves
    it, and a sender that goes through [sendToBackground] gets the analysis
    when the call returned one and otherwise an error with the very message
    of the call's error, 'Message failed' standing in for an empty one. *)
Theorem analysis_request_is_answered s d url clk backend :
  let message := {| messageType := codes "ANALYZE_CONTENT";
                    messageData := Some d; messageUrl := url |} in
  exists response,
    onBackgroundMessage typeError s message clk backend =
      (Some response, true, (handleContentAnalysis s d clk backend).2) /\
    sendToBackground typeError (Delivered response) =
      match (handleContentAnalysis s d clk backend).1 with
      | Returned a => Returned (Success a)
      | Thrown e => Thrown (orString e (codes "Message failed"))
      end.
Proof.
  cbv zeta. unfold onBackgroundMessage. simpl.
  destruct (handleContentAnalysis s d clk backend) as [[a|e] s'].
  - exists (Success a). split; reflexivity.
  - exists (Failure e). split; reflexivity.
Qed.

(** A message that is neither 'ANALYZE_CONTENT' nor
    'CONTENT_CHANGED' gets no response from the background, and no message
    but 'ANALYZE_CONTENT' changes the service. *)
Theorem other_messages_leave_the_service s message clk backend :
  messageType message <> codes "ANALYZE_CONTENT" ->
  (onBackgroundMessage typeError s message clk backend).2 = s /\
  (onBackgroundMessage typeError s message clk backend).1.2 = false /\
  ((onBackgroundMessage typeError s message clk backend).1.1 = None <->
   messageType message <> codes "CONTENT_CHANGED").
Proof.
  intros Hne. unfold onBackgroundMessage.
  case_bool_decide; [contradiction|].
  case_bool_decide; simpl; repeat split; try discriminate; try contradiction;
    trivial.
Qed.

(** X16: with a tab that has an id, [analyzeCurrentPage] always ends
    with [loading] off, and never with both an analysis and an error: on any
    failure the analysis is cleared and the page last analysed is kept. *)
Theorem popup_ends_loaded_or_failed (state : AnalysisState A) tab extracted
    analysed stored :
  hasNoId (Some tab) = false ->
  let final := analyzeCurrentPage typeError state (Some tab) extracted analysed
                 stored in
  loading final = false /\
  (error final = None \/
   (analysis final = None /\ lastAnalyzed final = lastAnalyzed state)).
Proof.
  intros Hid. cbv zeta. unfold analyzeCurrentPage. rewrite Hid.
  destruct (analyzeSteps typeError tab extracted analysed stored); simpl.
  - split; [reflexivity | now left].
  - split; [reflexivity | now right].
Qed.

(** X17: the popup shows what the service answered.  When the
    content script delivered the page data and the storage takes the
    write, the popup ends with the analysis [handleContentAnalysis]
    returned and no error, or with no analysis and the message of the error
    it threw ('Failed to analyze content' for an empty one). *)
Theorem popup_shows_service_answer (state : AnalysisState A) tab d s clk backend :
  hasNoId (Some tab) = false ->
  let final := analyzeCurrentPage typeError state (Some tab)
                 (Delivered (Success d)) (askBackground typeError s clk backend)
                 None in
  match (handleContentAnalysis s d clk backend).1 with
  | Returned a => analysis final = Some a /\ error final = None
  | Thrown e =>
      analysis final = None /\
      error final = Some (orString e (codes "Failed to analyze content"))
  end.
Proof.
  intros Hid. cbv zeta. unfold analyzeCurrentPage. rewrite Hid.
  unfold analyzeSteps, askBackground, onBackgroundMessage. simpl.
  destruct (handleContentAnalysis s d clk backend) as [[a|e] s']; simpl;
    split; reflexivity.
Qed.
End MessagingFacts.

(** * Properties of the configuration *)





(** Past that condition they part: with the key
    'your-actual-openai-key-here' the configuration reports the simulation
    and the service calls OpenAI. *)
Example service_calls_openai_with_a_stand_in :
  let env := {| NODE_ENV := Some (codes "development");
                OPENAI_API_KEY := Some (codes "your-actual-openai-key-here");
                ANTHROPIC_API_KEY := None;
                PLASMO_PUBLIC_BACKEND_URL := None |} in
  analysisRoute env = openai /\
  getApiMode (makeConfig (NODE_ENV env) (codes "your-actual-openai-key-here")
                (codes "INJECT_ANTHROPIC_KEY_HERE")
                (PLASMO_PUBLIC_BACKEND_URL env)) = simulation.
Proof. split; vm_compute; reflexivity. Qed.

(** * Properties of the content script *)

Lemma whiteSpaceRuns_bound s :
  forall inRun,
    (2 * whiteSpaceRuns s inRun <= length s + (if inRun then 0 else 1))%nat.
Proof.
  induction s as [|c s IH]; intros inRun; simpl.
  - destruct inRun; lia.
  - destruct (isWhiteSpace c).
    + specialize (IH true). destruct inRun; simpl in *; lia.
    + specialize (IH false). destruct inRun; simpl in *; lia.
Qed.

Lemma imap_In {X Y : Type} (l : list X) :
  forall (f : nat -> X -> Y) y,
    In y (imap f l) -> exists i x, y = f i x /\ In x l.
Proof.
  induction l as [|x l IH]; intros f y Hin; simpl in Hin; [contradiction|].
  destruct Hin as [<-|Hin].
  - exists 0%nat, x. split; [reflexivity | now left].
  - destruct (IH _ _ Hin) as (i & x' & -> & Hx).
    exists (S i), x'. split; [reflexivity | now right].
Qed.

Lemma firstLongText_Some doc selectors content :
  firstLongText doc selectors = Some content ->
  (50 < length content <= 2000)%nat.
Proof.
  induction selectors as [|selector rest IH]; simpl; [discriminate|].
  destruct (querySelector doc selector) as [text|]; [|exact IH].
  case_bool_decide; [exact IH|].
  destruct (Nat.ltb_spec 50 (length (trim text))); [|exact IH].
  intros [= <-]. rewrite length_take. lia.
Qed.


(** X20: the text the extractor hands on is never longer than 2000
    code units; it is the text of a platform selector only if that has more
    than 50, and the stripped text of the body otherwise. *)
Theorem extractMainContent_is_bounded platform doc :
  (length (extractMainContent platform doc) <= 2000)%nat /\
  ((50 < length (extractMainContent platform doc))%nat \/
   extractMainContent platform doc = fallbackContentExtraction doc).
Proof.
  unfold extractMainContent. cbv zeta.
  destruct (firstLongText doc _) as [content|] eqn:E.
  - apply firstLongText_Some in E. split; [lia | left; lia].
  - split; [|now right]. unfold fallbackContentExtraction.
    destruct (strippedBodyText doc) as [text|]; simpl; [|lia].
    rewrite length_take. lia.
Qed.

Section ContentScriptFacts.
Variables toLowerCase toUpperCase : jsstring -> jsstring.

(** X21: the word count the extractor reports is at least 1, for
    an empty text too, and at most 1001: the text has at most 2000 code
    units and two words are at least one white space apart. *)
Theorem reported_word_count_is_bounded doc now :
  1 <= wordCount (metadata (extractPageData toLowerCase doc now)) <= 1001.
Proof.
  unfold extractPageData, extractMetadata. cbv zeta. cbn [metadata wordCount].
  set (content := extractMainContent _ doc).
  destruct (extractMainContent_is_bounded (detectPlatform toLowerCase doc) doc)
    as [Hlen _]. fold content in Hlen.
  unfold splitLength.
  pose proof (whiteSpaceRuns_bound content false) as H. simpl in H. lia.
Qed.

Lemma extractForms_values doc v :
  In v (concat (map (fun form => map value (fields form))
                  (extractForms toLowerCase doc))) ->
  exists form input,
    In form (documentForms doc) /\ In input (formElements form) /\
    v = value (extractFormField toLowerCase input).
Proof.
  intros Hin. apply in_concat in Hin as (values & Hvalues & Hv).
  apply in_map_iff in Hvalues as (data & <- & Hdata).
  unfold extractForms in Hdata.
  apply imap_In in Hdata as (index & form & -> & Hform).
  cbn [fields] in Hv. unfold extractFormFields in Hv.
  rewrite map_map in Hv. apply in_map_iff in Hv as (input & <- & Hinput).
  now exists form, input.
Qed.

(** X22: what is typed into a password field does not leave the
    page.  Every value among the extracted fields is '[HIDDEN]', the empty
    string, or the value of an element of the page whose type is not
    'password'. *)
Theorem password_values_stay_on_the_page doc now v :
  In v (concat (map (fun form => map value (fields form))
                  (forms (extractPageData toLowerCase doc now)))) ->
  v = codes "[HIDDEN]" \/ v = [] \/
  exists form input,
    In form (documentForms doc) /\ In input (formElements form) /\
    elementType input <> codes "password" /\ elementValue input = v.
Proof.
  intros Hin. cbn [extractPageData forms] in Hin.
  apply extractForms_values in Hin as (form & input & Hform & Hinput & ->).
  cbn [extractFormField value]. case_bool_decide as Hpw; [now left|].
  right. unfold orString. case_bool_decide as Hempty; [now left|].
  right. now exists form, input.
Qed.


Lemma detectPlatform_known doc domain :
  In domain (map fst platforms) ->
  includes (toLowerCase (hostname doc)) domain = true ->
  In (detectPlatform toLowerCase doc) (map snd platforms).
Proof.
  intros Hdomain Hinc. unfold detectPlatform. cbv zeta.
  destruct (find _ platforms) as [[d p]|] eqn:E.
  - apply find_some in E as [Hin _].
    apply in_map_iff. now exists (d, p).
  - apply in_map_iff in Hdomain as ([d p] & <- & Hin).
    pose proof (find_none _ _ E _ Hin) as Hnone. simpl in Hnone, Hinc.
    congruence.
Qed.

Lemma categorizeContent_known_platform d :
  notUnknown (platform (metadata d)) = true ->
  In (codes "SAAS Application") (categorizeContent toLowerCase d).
Proof.
  intros Hp. unfold categorizeContent. cbv zeta. rewrite Hp.
  destruct (includes (toLowerCase (url d)) _ || includes _ _),
    (hasForms d), (includes _ (codes "analytics") || includes _ _),
    (includes _ (codes "settings") || includes _ _); simpl;
    now (repeat ((left; reflexivity) || right)).
Qed.

Lemma extractKeyInsights_known_platform d :
  notUnknown (platform (metadata d)) = true ->
  In (codes "Optimized for " ++ platform (metadata d) ++
      codes " platform integration") (extractKeyInsights toLowerCase d).
Proof.
  intros Hp. unfold extractKeyInsights. cbv zeta. rewrite Hp.
  set (insight := codes "Optimized for " ++ _ ++ _).
  destruct (includes (toLowerCase (mainContent d)) _), (hasForms d),
    (hasInteractiveElements (metadata d)), (500 <? wordCount (metadata d));
    cbn [app length Nat.ltb Nat.leb In];
    now (repeat ((left; reflexivity) || right)).
Qed.

(** X23: from the page to the analysis: a page whose host name, once
    lower-cased, contains one of the eight domains of the extractor is
    extracted with that platform and analysed by the simulation as a
    'SAAS Application', with the insight that names the platform. *)
Theorem known_hosts_are_saas_applications doc now domain :
  In domain (map fst platforms) ->
  includes (toLowerCase (hostname doc)) domain = true ->
  let d := extractPageData toLowerCase doc now in
  let r := simulateAIAnalysis toLowerCase toUpperCase d in
  In (platform (metadata d)) (map snd platforms) /\
  In (str "SAAS Application") (categories r) /\
  In (JString (codes "Optimized for " ++ platform (metadata d) ++
               codes " platform integration")) (keyInsights r).
Proof.
  intros Hdomain Hinc. cbv zeta.
  pose proof (detectPlatform_known doc domain Hdomain Hinc) as Hknown.
  assert (notUnknown (detectPlatform toLowerCase doc) = true) as Hnot.
  { unfold notUnknown. apply bool_decide_eq_true_2. intros Heq.
    rewrite Heq in Hknown. vm_compute in Hknown.
    repeat (destruct Hknown as [Hknown|Hknown]; [discriminate Hknown|]).
    exact Hknown. }
  split; [exact Hknown|]. split.
  - cbn [simulateAIAnalysis categories]. unfold str.
    apply in_map. now apply categorizeContent_known_platform.
  - cbn [simulateAIAnalysis keyInsights]. apply in_map.
    now apply extractKeyInsights_known_platform.
Qed.
End ContentScriptFacts.

Example extractPageData_loginPage :
  let d := extractPageData asciiLower loginPage 1000 in
  platform (metadata d) = codes "notion" /\
  contentType (metadata d) = codes "form" /\
  mainContent d = codes "Log in to your workspace" /\
  map (fun form => (id form, map (fun field => (label field, value field))
                               (fields form))) (forms d) =
    [(codes "form-0", [(codes "Email", codes "ann@example.com");
                       (codes "Password", codes "[HIDDEN]")])].
Proof. vm_compute. repeat split. Qed.

Lemma password_values_stay_on_the_page_witness :
  In (codes "ann@example.com")
    (concat (map (fun form => map value (fields form))
               (forms (extractPageData asciiLower loginPage 1000)))) /\
  (codes "ann@example.com" = codes "[HIDDEN]" \/ codes "ann@example.com" = [] \/
   exists form input,
     In form (documentForms loginPage) /\ In input (formElements form) /\
     elementType input <> codes "password" /\
     elementValue input = codes "ann@example.com").
Proof.
  assert (In (codes "ann@example.com")
            (concat (map (fun form => map value (fields form))
                       (forms (extractPageData asciiLower loginPage 1000)))))
    as H by (vm_compute; left; reflexivity).
  split; [exact H|].
  exact (password_values_stay_on_the_page asciiLower loginPage 1000 _ H).
Defined.

Lemma known_hosts_are_saas_applications_witness :
  In (codes "notion.so") (map fst platforms) /\
  includes (asciiLower (hostname loginPage)) (codes "notion.so") = true /\
  In (str "SAAS Application")
    (categories (simulateAIAnalysis asciiLower asciiUpper
                   (extractPageData asciiLower loginPage 1000))).
Proof.
  assert (In (codes "notion.so") (map fst platforms)) as H1
    by (vm_compute; left; reflexivity).
  assert (includes (asciiLower (hostname loginPage)) (codes "notion.so") = true)
    as H2 by (vm_compute; reflexivity).
  split; [exact H1|]. split; [exact H2|].
  exact (proj1 (proj2 (known_hosts_are_saas_applications asciiLower asciiUpper
                         loginPage 1000 _ H1 H2))).
Defined.

(** * Properties of the storage *)

Lemma isPrefixOf_app w s : isPrefixOf w (w ++ s) = true.
Proof.
  induction w as [|c w IH]; simpl; [reflexivity|].
  now rewrite Z.eqb_refl, IH.
Qed.

Lemma analysisKey_inj url url' : analysisKey url = analysisKey url' -> url = url'.
Proof. unfold analysisKey. apply app_inv_head. Qed.

Lemma analysisKey_not_last url : analysisKey url <> lastAnalyzedUrlKey.
Proof. unfold analysisKey. discriminate. Qed.

Lemma analysisKey_not_settings url : analysisKey url <> codes "settings".
Proof. unfold analysisKey. discriminate. Qed.

Lemma lookup_fold_left_delete (keys : list jsstring) :
  forall (storage : gmap jsstring JSValue) key,
    fold_left (fun storage key => delete key storage) keys storage !! key =
      if bool_decide (key ∈ keys) then None else storage !! key.
Proof.
  induction keys as [|k keys IH]; intros storage key; cbn [fold_left].
  - case_bool_decide as H; [|reflexivity]. now apply not_elem_of_nil in H.
  - rewrite IH. destruct (decide (key = k)) as [->|Hne].
    + rewrite (bool_decide_eq_true_2 (k ∈ k :: keys)) by apply list_elem_of_here.
      rewrite lookup_delete_eq. now case_bool_decide.
    + rewrite lookup_delete_ne by congruence.
      case_bool_decide as H1; case_bool_decide as H2; try reflexivity.
      * exfalso. apply H2. now apply list_elem_of_further.
      * exfalso. apply elem_of_cons in H2 as [H2|H2]; [congruence | tauto].
Qed.

(** X25: what [setAnalysis] stores [getAnalysis] returns, and the
    url becomes the last analysed one; the analyses of other urls and the
    settings are left as they were. *)
Theorem setAnalysis_then_get url analysis storage :
  let storage' := setAnalysis url analysis storage in
  getAnalysis url storage' = Some analysis /\
  getLastAnalyzedUrl storage' = Some (JString url) /\
  (forall other, other <> url ->
     getAnalysis other storage' = getAnalysis other storage) /\
  getSettings storage' = getSettings storage.
Proof.
  cbv zeta. unfold setAnalysis, getAnalysis, getLastAnalyzedUrl, getSettings.
  repeat split.
  - rewrite lookup_insert_ne by (apply not_eq_sym, analysisKey_not_last).
    apply lookup_insert_eq.
  - apply lookup_insert_eq.
  - intros other Hne.
    rewrite lookup_insert_ne by (apply not_eq_sym, analysisKey_not_last).
    apply lookup_insert_ne. intros Heq. apply Hne. symmetry.
    now apply analysisKey_inj.
  - rewrite lookup_insert_ne by discriminate.
    now rewrite lookup_insert_ne by apply analysisKey_not_settings.
Qed.

(** X26: [clearAnalysis] with a url removes the analysis of that url
    and nothing else: every other key is kept, 'lastAnalyzedUrl' too, which
    can go on naming the url whose analysis is gone. *)
Theorem clearAnalysis_of_one_url url storage :
  url <> [] ->
  let storage' := clearAnalysis (Some url) storage in
  getAnalysis url storage' = None /\
  getLastAnalyzedUrl storage' = getLastAnalyzedUrl storage /\
  forall key, key <> analysisKey url -> storage' !! key = storage !! key.
Proof.
  intros Hurl. cbv zeta. unfold clearAnalysis, truthyString.
  rewrite bool_decide_eq_false_2 by exact Hurl. simpl.
  unfold getAnalysis, getLastAnalyzedUrl. repeat split.
  - apply lookup_delete_eq.
  - apply lookup_delete_ne, analysisKey_not_last.
  - intros key Hne. now apply lookup_delete_ne.
Qed.

(** X27: [clearAnalysis] without a url, or with the empty string for
    one, removes every key that starts with 'analysis_' and
    'lastAnalyzedUrl', and keeps every other key with its value. *)
Theorem clearAnalysis_of_all url storage key :
  truthyString url = false ->
  clearAnalysis url storage !! key =
    if isPrefixOf (codes "analysis_") key || bool_decide (key = lastAnalyzedUrlKey)
    then None else storage !! key.
Proof.
  intros Hurl. unfold clearAnalysis. rewrite Hurl. cbv zeta.
  case_bool_decide as Hlast.
  - subst key. rewrite orb_true_r. apply lookup_delete_eq.
  - rewrite orb_false_r, lookup_delete_ne by congruence.
    rewrite lookup_fold_left_delete.
    destruct (isPrefixOf (codes "analysis_") key) eqn:Hpre.
    + case_bool_decide as Hin; [reflexivity|].
      destruct (storage !! key) as [v|] eqn:Hv; [|reflexivity].
      exfalso. apply Hin. apply list_elem_of_In, filter_In.
      split; [|exact Hpre].
      apply in_map_iff. exists (key, v). split; [reflexivity|].
      apply list_elem_of_In. now apply elem_of_map_to_list.
    + case_bool_decide as Hin; [|reflexivity].
      apply list_elem_of_In, filter_In in Hin as [_ Hin]. congruence.
Qed.

Example clearAnalysis_sample :
  getAnalysis (codes "https://a.example/")
    (clearAnalysis (Some (codes "https://a.example/")) sampleStorage) = None /\
  getLastAnalyzedUrl
    (clearAnalysis (Some (codes "https://a.example/")) sampleStorage) =
    Some (str "https://a.example/") /\
  clearAnalysis (Some []) sampleStorage =
    {[ codes "installedAt" := JNumber 1;
       codes "settings" := JObject [(codes "theme", str "dark")] ]}.
Proof. repeat split; vm_compute; reflexivity. Qed.

Lemma clearAnalysis_of_one_url_witness :
  codes "https://a.example/" <> [] /\
  getAnalysis (codes "https://a.example/")
    (clearAnalysis (Some (codes "https://a.example/")) sampleStorage) = None /\
  getLastAnalyzedUrl
    (clearAnalysis (Some (codes "https://a.example/")) sampleStorage) =
    getLastAnalyzedUrl sampleStorage.
Proof.
  assert (codes "https://a.example/" <> []) as H by discriminate.
  split; [exact H|].
  destruct (clearAnalysis_of_one_url (codes "https://a.example/") sampleStorage H)
    as (H1 & H2 & _).
  split; [exact H1 | exact H2].
Defined.

Lemma clearAnalysis_of_all_witness :
  truthyString (Some []) = false /\
  clearAnalysis (Some []) sampleStorage !! analysisKey (codes "https://b.example/") =
    None.
Proof.
  assert (truthyString (Some []) = false) as H by reflexivity.
  split; [exact H|].
  rewrite (clearAnalysis_of_all (Some []) sampleStorage _ H).
  reflexivity.
Defined.

(** * Properties of the retries and of the popup built on them *)

Lemma retryFrom_first_reply {X : Type} lastError (attempts : nat -> Attempt X)
    result :
  forall k remaining attempt,
    (k <= remaining)%nat ->
    (forall i, (i < k)%nat ->
       exists message, attemptResult (attempts (attempt + i)%nat) = Thrown message) ->
    attemptResult (attempts (attempt + k)%nat) = Returned result ->
    retryFrom lastError attempts remaining attempt =
      (Resolved result,
       map (fun a => 500 * (Z.of_nat a + 1)) (seq attempt k)).
Proof.
  induction k as [|k IH]; intros remaining attempt Hk Hfail Hreply.
  - rewrite Nat.add_0_r in Hreply.
    destruct remaining; simpl; now rewrite Hreply.
  - destruct remaining as [|remaining]; [lia|].
    destruct (Hfail 0%nat ltac:(lia)) as [message Hm].
    rewrite Nat.add_0_r in Hm. cbn [retryFrom]. rewrite Hm.
    rewrite (IH remaining (S attempt)); [reflexivity | lia | |].
    + intros i Hi. destruct (Hfail (S i) ltac:(lia)) as [m' Hm'].
      exists m'. now replace (S attempt + i)%nat with (attempt + S i)%nat by lia.
    + now replace (S attempt + k)%nat with (attempt + S k)%nat by lia.
Qed.

Lemma retryFrom_no_reply {X : Type} lastError (attempts : nat -> Attempt X)
    message :
  forall remaining attempt,
    (forall i, (i < remaining)%nat ->
       exists m, attemptResult (attempts (attempt + i)%nat) = Thrown m) ->
    attemptResult (attempts (attempt + remaining)%nat) = Thrown message ->
    retryFrom lastError attempts remaining attempt =
      (Failed (lastError message),
       map (fun a => 500 * (Z.of_nat a + 1)) (seq attempt remaining)).
Proof.
  induction remaining as [|remaining IH]; intros attempt Hfail Hlast.
  - rewrite Nat.add_0_r in Hlast. simpl. now rewrite Hlast.
  - destruct (Hfail 0%nat ltac:(lia)) as [m Hm].
    rewrite Nat.add_0_r in Hm. cbn [retryFrom]. rewrite Hm.
    rewrite (IH (S attempt)); [reflexivity | |].
    + intros i Hi. destruct (Hfail (S i) ltac:(lia)) as [m' Hm'].
      exists m'. now replace (S attempt + i)%nat with (attempt + S i)%nat by lia.
    + now replace (S attempt + remaining)%nat
        with (attempt + S remaining)%nat by lia.
Qed.

(** X28: [sendMessage] returns the first reply.  When the attempts
    before the [k]-th fail, [k] being at most [retries], and the [k]-th is
    answered, it resolves to that answer, having waited 500 ms, 1000 ms,
    ... , 500 k ms between the attempts, and makes no further attempt. *)
Theorem sendMessage_returns_first_reply {X : Type} retries
    (attempts : nat -> Attempt X) k result :
  (k <= retries)%nat ->
  (forall i, (i < k)%nat ->
     exists message, attemptResult (attempts i) = Thrown message) ->
  attemptResult (attempts k) = Returned result ->
  sendMessage retries attempts = (Resolved result, backoff k) /\
  forall others,
    (forall i, (i <= k)%nat -> others i = attempts i) ->
    sendMessage retries others = sendMessage retries attempts.
Proof.
  intros Hk Hfail Hreply.
  assert (forall others,
            (forall i, (i <= k)%nat -> others i = attempts i) ->
            sendMessage retries others = (Resolved result, backoff k)) as H.
  { intros others Hsame. unfold sendMessage, backoff.
    apply retryFrom_first_reply; [exact Hk | |].
    - intros i Hi. simpl. rewrite Hsame by lia. now apply Hfail.
    - simpl. now rewrite Hsame by lia. }
  split.
  - now apply H.
  - intros others Hsame. rewrite (H others Hsame). symmetry. now apply H.
Qed.

(** X29: [sendMessage] gives up after [retries + 1] attempts.  When
    they all fail it has waited 500 ms, ... , 500 [retries] ms and ends
    with the error of the last attempt, turned into an
    [ExtensionContextError] when its message speaks of an invalidated
    context. *)
Theorem sendMessage_gives_up {X : Type} retries (attempts : nat -> Attempt X)
    message :
  (forall i, (i < retries)%nat ->
     exists m, attemptResult (attempts i) = Thrown m) ->
  attemptResult (attempts retries) = Thrown message ->
  sendMessage retries attempts =
    (Failed (lastMessageError message), backoff retries).
Proof.
  intros Hfail Hlast. unfold sendMessage, backoff.
  now apply retryFrom_no_reply.
Qed.

Section SafePopupFacts.
Variable typeError : jsstring -> jsstring.
Context {A : Type}.

(** X30: the popup built on ExtensionUtils does not report a call
    the service refused.  It reads [analysis] off the response without
    looking at [success]: when [handleContentAnalysis] throws, for the rate
    limit as for a failed analysis, and the storage takes the write, the
    popup ends with no analysis and no error. *)
Theorem refused_analysis_is_not_reported (state : AnalysisState A) tab d
    (s : AIService A) clk backend e :
  hasNoId (Some tab) = false ->
  (handleContentAnalysis s d clk backend).1 = Thrown e ->
  let final := analyzeCurrentPageWithUtils typeError state (Some tab)
                 (Resolved (Some (Success d)))
                 (askBackgroundWithUtils typeError s clk backend) None in
  analysis final = None /\ error final = None /\ loading final = false.
Proof.
  intros Hid Hthrown. cbv zeta. unfold analyzeCurrentPageWithUtils.
  rewrite Hid.
  unfold analyzeStepsWithUtils, askBackgroundWithUtils, sendMessage,
    onBackgroundMessage.
  simpl. destruct (handleContentAnalysis s d clk backend) as [[a|e'] s'];
    simpl in *; [discriminate|].
  destruct (truthyString (tabUrl tab)); simpl; repeat split.
Qed.
End SafePopupFacts.

Lemma sendMessage_returns_first_reply_witness :
  (2 <= 2)%nat /\
  (forall i, (i < 2)%nat ->
     exists message, attemptResult (thirdTimeLucky i) = Thrown message) /\
  attemptResult (thirdTimeLucky 2) = Returned (str "pong") /\
  sendMessage 2 thirdTimeLucky = (Resolved (str "pong"), [500; 1000]).
Proof.
  assert (forall i, (i < 2)%nat ->
            exists message, attemptResult (thirdTimeLucky i) = Thrown message)
    as H.
  { intros [|[|i]] Hi; [eexists; reflexivity | eexists; reflexivity | lia]. }
  split; [lia|]. split; [exact H|]. split; [reflexivity|].
  exact (proj1 (sendMessage_returns_first_reply 2 thirdTimeLucky 2 (str "pong")
                  (le_n 2) H eq_refl)).
Defined.

Lemma sendMessage_gives_up_witness :
  (forall i, (i < 1)%nat ->
     exists m, attemptResult (thirdTimeLucky i) = Thrown m) /\
  attemptResult (thirdTimeLucky 1) =
    Thrown (codes "Extension context invalidated") /\
  sendMessage 1 thirdTimeLucky =
    (Failed (ExtensionContextError
               (codes "Extension was reloaded. Please try again.")), [500]).
Proof.
  assert (forall i, (i < 1)%nat ->
            exists m, attemptResult (thirdTimeLucky i) = Thrown m) as H.
  { intros [|i] Hi; [eexists; reflexivity | lia]. }
  split; [exact H|]. split; [reflexivity|].
  exact (sendMessage_gives_up 1 thirdTimeLucky _ H eq_refl).
Defined.

Lemma refused_analysis_is_not_reported_witness :
  let final :=
    analyzeCurrentPageWithUtils v8TypeError idleState (Some notionTab)
      (Resolved (Some (Success (pageOf "hello world"))))
      (askBackgroundWithUtils v8TypeError saturatedService (clockAt 60000)
         (Returned helloAnalysis)) None in
  hasNoId (Some notionTab) = false /\
  (handleContentAnalysis saturatedService (pageOf "hello world") (clockAt 60000)
     (Returned helloAnalysis)).1 = Thrown rateLimitMessage /\
  analysis final = None /\ error final = None /\ loading final = false.
Proof.
  assert (hasNoId (Some notionTab) = false) as H1 by reflexivity.
  assert ((handleContentAnalysis saturatedService (pageOf "hello world")
             (clockAt 60000) (Returned helloAnalysis)).1 =
          Thrown rateLimitMessage) as H2 by (vm_compute; reflexivity).
  cbv zeta. split; [exact H1|]. split; [exact H2|].
  exact (refused_analysis_is_not_reported v8TypeError idleState notionTab
           (pageOf "hello world") saturatedService (clockAt 60000)
           (Returned helloAnalysis) rateLimitMessage H1 H2).
Defined.

(** ** More theorems at concrete inputs *)

Lemma popup_ends_loaded_or_failed_witness :
  let final :=
    analyzeCurrentPage v8TypeError idleState (Some notionTab)
      (Rejected (codes "Could not establish connection. Receiving end does not exist."))
      (fun _ => Unanswered) None in
  hasNoId (Some notionTab) = false /\
  loading final = false /\
  (error final = None \/
   (analysis final = None /\ lastAnalyzed final = lastAnalyzed idleState)).
Proof.
  assert (hasNoId (Some notionTab) = false) as H by reflexivity.
  cbv zeta. split; [exact H|].
  exact (popup_ends_loaded_or_failed v8TypeError idleState notionTab _ _ None H).
Defined.

Lemma popup_shows_service_answer_witness :
  let final :=
    analyzeCurrentPage v8TypeError idleState (Some notionTab)
      (Delivered (Success (pageOf "hello world")))
      (askBackground v8TypeError saturatedService (clockAt 60000)
         (Returned helloAnalysis)) None in
  hasNoId (Some notionTab) = false /\
  analysis final = None /\ error final = Some rateLimitMessage.
Proof.
  assert (hasNoId (Some notionTab) = false) as H by reflexivity.
  cbv zeta. split; [exact H|].
  pose proof (popup_shows_service_answer v8TypeError idleState notionTab
                (pageOf "hello world") saturatedService (clockAt 60000)
                (Returned helloAnalysis) H) as Hshown.
  cbv zeta in Hshown.
  replace (handleContentAnalysis saturatedService (pageOf "hello world")
             (clockAt 60000) (Returned helloAnalysis)).1
    with (Thrown (A := ContentAnalysis) rateLimitMessage) in Hshown
    by (vm_compute; reflexivity).
  exact Hshown.
Defined.

